(** * The GPT request layer of [src/server/openai/request.ts]

    A shallow embedding of the token-budget calculator
    ([getMaxTokensForResponse]), the request dispatcher with its rate-limit
    retry ([sendGptRequest]), the schema-validated extractor
    ([sendGptRequestWithSchema]) and the vision adapter
    ([sendGptVisionRequest]), followed by the properties the specification
    states about them.

    The asynchronous functions are written in a small monad: a computation
    consumes the answers the model provider will give to the successive
    [openai.chat.completions.create] calls, emits the effects it performs
    (console output, provider requests, event-store writes, timers) in
    order, and settles with a value, settles with a thrown error, or stays
    pending when the provider has no further answer. *)

From Stdlib Require Import ZArith List String Ascii Bool Lia.
From Stdlib Require Import SpecFloat.
Import ListNotations.
Open Scope string_scope.
Open Scope list_scope.
Open Scope Z_scope.

(** ** JavaScript numbers

    Counts and delays are integers far below 2^53 and are kept in [Z].  The
    three places where the source computes with fractions ([* 0.01], [/ 2]
    and the cost table) are evaluated in IEEE 754 binary64 with the Standard
    Library's [SpecFloat]. *)

Module Js.

Definition prec : Z := 53.
Definition emax : Z := 1024.

Definition number := spec_float.

Definition of_Z (z : Z) : number := binary_normalize prec emax z 0 false.
Definition mul : number -> number -> number := SFmul prec emax.
Definition div : number -> number -> number := SFdiv prec emax.
Definition add : number -> number -> number := SFadd prec emax.

(** The literal [0.01]: the double nearest to 1/100. *)
Definition lit_0_01 : number := S754_finite false 5764607523034235 (-59).
(** The literal [0.2]: the double nearest to 1/5. *)
Definition lit_0_2 : number := S754_finite false 7205759403792794 (-55).

(** [Math.ceil], [Math.round] and [Math.min] on the finite values the
    module meets; the result is an integer.  [Math.round] rounds halves
    towards +infinity, that is floor (x + 1/2). *)
Definition Math_ceil (x : number) : Z :=
  match x with
  | S754_finite s m e =>
      let n := if s then Z.neg m else Z.pos m in
      if 0 <=? e then n * 2 ^ e else - ((- n) / 2 ^ (- e))
  | _ => 0
  end.

Definition Math_round (x : number) : Z :=
  match x with
  | S754_finite s m e =>
      let n := if s then Z.neg m else Z.pos m in
      if 0 <=? e then n * 2 ^ e else (2 * n + 2 ^ (- e)) / 2 ^ (- e + 1)
  | _ => 0
  end.

Definition Math_min : Z -> Z -> Z := Z.min.

(** [s.toUpperCase()] on ASCII text. *)
Definition upper_ascii (c : ascii) : ascii :=
  let n := nat_of_ascii c in
  if (andb (Nat.leb 97 n) (Nat.leb n 122)) then ascii_of_nat (n - 32) else c.

Fixpoint toUpperCase (s : string) : string :=
  match s with
  | EmptyString => EmptyString
  | String c s' => String (upper_ascii c) (toUpperCase s')
  end.

(** A thrown value.  [response_status] is [error.response?.status], the
    one field the [catch] block of [sendGptRequest] tests.  [status] is
    [error.status], where the OpenAI client puts the HTTP status of the
    errors it throws; the module never reads it.  An [Error] made with
    [new Error(message)] has neither. *)
Record Error := {
  message : string;
  status : option Z;
  response_status : option Z
}.

Definition new_Error (msg : string) : Error :=
  {| message := msg; status := None; response_status := None |}.

(** Parsed JSON, the [any] that [parse] returns and a schema consumes. *)
#[local] Unset Elimination Schemes.
Inductive value :=
| Undefined
| Null
| Bool (b : bool)
| Number (n : Z)
| Str (s : string)
| Array (items : list value)
| Object (fields : list (string * value)).

End Js.

(** The result of a synchronous call that may throw. *)
Inductive Result (A : Type) :=
| Ok (a : A)
| Err (e : Js.Error).
Arguments Ok {A} a.
Arguments Err {A} e.

(** ** Model profiles *)

Inductive Model := gpt_4_0613 | gpt_4_vision_preview | gpt_4_turbo_preview.

Definition CONTEXT_WINDOW (model : Model) : Z :=
  match model with
  | gpt_4_0613 => 8192
  | gpt_4_vision_preview => 128000
  | gpt_4_turbo_preview => 128000
  end.

Definition MAX_OUTPUT (model : Model) : Z :=
  match model with
  | gpt_4_0613 => 8192
  | gpt_4_vision_preview => 4096
  | gpt_4_turbo_preview => 4096
  end.

Definition ONE_MILLION : Z := 1000000.

Definition INPUT_TOKEN_COSTS (model : Model) : Js.number :=
  match model with
  | gpt_4_0613 => Js.div (Js.of_Z 30) (Js.of_Z ONE_MILLION)
  | gpt_4_vision_preview => Js.div (Js.of_Z 10) (Js.of_Z ONE_MILLION)
  | gpt_4_turbo_preview => Js.div (Js.of_Z 10) (Js.of_Z ONE_MILLION)
  end.

Definition OUTPUT_TOKEN_COSTS (model : Model) : Js.number :=
  match model with
  | gpt_4_0613 => Js.div (Js.of_Z 60) (Js.of_Z ONE_MILLION)
  | gpt_4_vision_preview => Js.div (Js.of_Z 30) (Js.of_Z ONE_MILLION)
  | gpt_4_turbo_preview => Js.div (Js.of_Z 30) (Js.of_Z ONE_MILLION)
  end.

(** ** Messages, requests, responses, usage events *)

Inductive ContentPart :=
| image_url (url : string) (detail : string)
| text (t : string).

Inductive Content :=
| Plain (s : string)
| Parts (blocks : list ContentPart).

Record Message := { role : string; content : Content }.

Record Request := {
  model : Model;
  messages : list Message;
  max_tokens : Z;
  temperature : Js.number
}.

(** A provider response: the [message.content] of each choice (absent
    content is [None]) and the optional usage counters
    [(prompt_tokens, completion_tokens)], each of which may be missing. *)
Record Usage := { prompt_tokens : option Z; completion_tokens : option Z }.

Record Response := {
  choices : list (option string);
  usage : option Usage
}.

Record Prompt := { promptType : string; prompt : string }.

(** The event written to the store.  The clock readings of the source
    ([timestamp], [duration]) are left out. *)
Record Event (BaseEventData : Type) := {
  base : BaseEventData;
  cost : Js.number;
  tokens : Z;
  event_model : Model;
  request_prompts : list Prompt;
  response_prompt : Prompt
}.
Arguments base {BaseEventData} _.
Arguments cost {BaseEventData} _.
Arguments tokens {BaseEventData} _.
Arguments event_model {BaseEventData} _.
Arguments request_prompts {BaseEventData} _.
Arguments response_prompt {BaseEventData} _.

(** ** Schemas *)

Definition ZodError := list string.

Inductive SafeParseReturnType :=
| SafeParseSuccess (data : Js.value)
| SafeParseError (error : ZodError).

Record ZodSchema := { safeParse : Js.value -> SafeParseReturnType }.

Definition success (r : SafeParseReturnType) : bool :=
  match r with SafeParseSuccess _ => true | SafeParseError _ => false end.

(** ** The collaborators the module imports

    [encode] is gpt-tokenizer's, [parse] is jsonc-parser's,
    [removeMarkdownCodeblocks] and [parseTemplate] come from
    [server/utils], [events_insert] is [db.events.insert] and
    [JSON_stringify] is [JSON.stringify].  [encode] and the event store
    may throw; [events_insert] gives the error thrown, if any.
    [parseTemplate] is only ever called with an empty parameter object,
    which is left out. *)
Class Env := {
  BaseEventData : Type;
  encode : string -> Result (list Z);
  removeMarkdownCodeblocks : string -> string;
  parse : string -> Js.value;
  parseTemplate : string -> string -> string -> string;
  events_insert : Event BaseEventData -> option Js.Error;
  JSON_stringify : forall A : Type, A -> string
}.

(** ** Effects and the monad of asynchronous computations *)

Inductive LogLine :=
| Log_UserPrompt (userPrompt : string)
| Log_SystemPrompt (systemPrompt : string)
| Log_Calling (model : Model) (max_tokens : Z)
| Log_ResponseTime (model : Model)
| Log_BudgetError (error : Js.Error)
| Log_Received429 (retries delay : Z)
| Log_ErrorDuringRequest (message : string).

Inductive Effect {env : Env} :=
| console_log (line : LogLine)
| console_error (error : Js.Error)
| chat_completions_create (request : Request)
| db_events_insert (event : Event BaseEventData)
| setTimeout (delay : Z).

(** How an awaited computation ends: with a value, with a thrown error, or
    never (the promise stays pending). *)
Inductive Settled (A : Type) :=
| Return (a : A)
| Throw (e : Js.Error)
| Pending.
Arguments Return {A} a.
Arguments Throw {A} e.
Arguments Pending {A}.

(** The provider's answers to the successive completion calls still to
    come. *)
Definition Script := list (Result Response).

Definition M {env : Env} (A : Type) : Type :=
  Script -> Settled A * list Effect * Script.

Section Monad.
Context {env : Env}.

Definition ret {A} (a : A) : M A := fun s => (Return a, [], s).

Definition throw {A} (e : Js.Error) : M A := fun s => (Throw e, [], s).

Definition bind {A B} (m : M A) (k : A -> M B) : M B :=
  fun s =>
    match m s with
    | (Return a, t, s') =>
        let '(r, t', s'') := k a s' in (r, t ++ t', s'')
    | (Throw e, t, s') => (Throw e, t, s')
    | (Pending, t, s') => (Pending, t, s')
    end.

(** [try { m } catch (error) { handler error }] *)
Definition try_catch {A} (m : M A) (handler : Js.Error -> M A) : M A :=
  fun s =>
    match m s with
    | (Throw e, t, s') =>
        let '(r, t', s'') := handler e s' in (r, t ++ t', s'')
    | settled => settled
    end.

Definition emit (e : Effect) : M unit := fun s => (Return tt, [e], s).

(** A synchronous call that may throw. *)
Definition lift {A} (r : Result A) : M A :=
  match r with
  | Ok a => ret a
  | Err e => throw e
  end.

(** [await openai.chat.completions.create(request)]: the request goes
    out, then the provider's next answer settles the call. *)
Definition create (request : Request) : M Response :=
  fun s =>
    match s with
    | [] => (Pending, [chat_completions_create request], [])
    | Ok response :: s' =>
        (Return response, [chat_completions_create request], s')
    | Err e :: s' => (Throw e, [chat_completions_create request], s')
    end.

(** [await db.events.insert(event)] *)
Definition insert (event : Event BaseEventData) : M unit :=
  fun s =>
    match events_insert event with
    | None => (Return tt, [db_events_insert event], s)
    | Some e => (Throw e, [db_events_insert event], s)
    end.

End Monad.

Notation "x <- m ;; k" := (bind m (fun x => k))
  (at level 61, m at next level, right associativity).
Notation "m ;; k" := (bind m (fun _ => k))
  (at level 61, right associativity).

(** The projections of a trace the properties speak about. *)
Section Traces.
Context {env : Env}.

(** The provider requests, in order. *)
Fixpoint requests_of (t : list Effect) : list Request :=
  match t with
  | [] => []
  | chat_completions_create request :: t' => request :: requests_of t'
  | _ :: t' => requests_of t'
  end.

(** The timers set, in order. *)
Fixpoint timeouts_of (t : list Effect) : list Z :=
  match t with
  | [] => []
  | setTimeout delay :: t' => delay :: timeouts_of t'
  | _ :: t' => timeouts_of t'
  end.

(** The "Received 429" lines: remaining retries and delay. *)
Fixpoint retry_lines_of (t : list Effect) : list (Z * Z) :=
  match t with
  | [] => []
  | console_log (Log_Received429 retries delay) :: t' =>
      (retries, delay) :: retry_lines_of t'
  | _ :: t' => retry_lines_of t'
  end.

(** Provider requests and timers only, in the order they happen. *)
Fixpoint network_and_timers (t : list Effect) : list Effect :=
  match t with
  | [] => []
  | chat_completions_create request :: t' =>
      chat_completions_create request :: network_and_timers t'
  | setTimeout delay :: t' => setTimeout delay :: network_and_timers t'
  | _ :: t' => network_and_timers t'
  end.

End Traces.

(** ** The request layer *)

Section RequestLayer.
Context {env : Env}.

(** [Math.ceil(maxContextTokens * 0.01)] *)
Definition context_padding (maxContextTokens : Z) : Z :=
  Js.Math_ceil (Js.mul (Js.of_Z maxContextTokens) Js.lit_0_01).

(** [Math.round(CONTEXT_WINDOW[model] / 2)] *)
Definition half_context (model : Model) : Z :=
  Js.Math_round (Js.div (Js.of_Z (CONTEXT_WINDOW model)) (Js.of_Z 2)).

(** The [try] block of [getMaxTokensForResponse]. *)
Definition getMaxTokensForResponse_try (inputText : string) (model : Model)
  : M Z :=
  tokens <- lift (encode inputText) ;;
  let numberOfInputTokens := Z.of_nat (List.length tokens) in
  let maxContextTokens := CONTEXT_WINDOW model in
  let padding := context_padding maxContextTokens in
  let maxTokensForResponse :=
    maxContextTokens - numberOfInputTokens - padding in
  if maxTokensForResponse <=? 0 then
    throw (Js.new_Error
             "Input text is too large to fit within the context window.")
  else
    ret (Js.Math_min maxTokensForResponse (MAX_OUTPUT model)).

Definition getMaxTokensForResponse (inputText : string) (model : Model)
  : M Z :=
  try_catch (getMaxTokensForResponse_try inputText model)
    (fun error =>
       emit (console_log (Log_BudgetError error)) ;;
       ret (half_context model)).

(** Default arguments of [sendGptRequest]. *)
Definition default_systemPrompt : string := "You are a helpful assistant.".
Definition default_temperature : Js.number := Js.lit_0_2.
Definition default_retries : Z := 10.
Definition default_delay : Z := 60000.
Definition default_imagePrompt : option Message := None.
Definition default_model : Model := gpt_4_turbo_preview.

(** [error?.response?.status !== 429] *)
Definition status_is_not_429 (error : Js.Error) : bool :=
  match Js.response_status error with
  | Some status => negb (status =? 429)
  | None => true
  end.

Definition prompt_of_message (message : Message) : Prompt :=
  {| promptType := Js.toUpperCase (role message);
     prompt := match content message with
               | Plain s => s
               | Parts blocks => JSON_stringify _ blocks
               end |}.

(** The event [sendGptRequest] records for a response. *)
Definition usage_event (baseEventData : BaseEventData) (model : Model)
    (messages : list Message) (response : Response)
  : Event BaseEventData :=
  let gptResponse := hd_error (choices response) in
  let inputTokens :=
    match usage response with
    | Some u => match prompt_tokens u with Some n => n | None => 0 end
    | None => 0
    end in
  let outputTokens :=
    match usage response with
    | Some u => match completion_tokens u with Some n => n | None => 0 end
    | None => 0
    end in
  let tokens := inputTokens + outputTokens in
  let cost :=
    Js.add (Js.mul (Js.of_Z inputTokens) (INPUT_TOKEN_COSTS model))
           (Js.mul (Js.of_Z outputTokens) (OUTPUT_TOKEN_COSTS model)) in
  {| base := baseEventData;
     cost := cost;
     tokens := tokens;
     event_model := model;
     request_prompts := map prompt_of_message messages;
     response_prompt :=
       {| promptType := "Assistant";
          prompt := match gptResponse with
                    | Some (Some c) => c
                    | _ => ""
                    end |} |}.

(** [gptResponse?.content ?? null] for
    [gptResponse = response.choices[0]?.message]. *)
Definition first_content (response : Response) : option string :=
  match hd_error (choices response) with
  | Some (Some c) => Some c
  | _ => None
  end.

(** The message sequence: image block first if present, then system,
    then user. *)
Definition build_messages (userPrompt systemPrompt : string)
    (imagePrompt : option Message) : list Message :=
  let messages :=
    [ {| role := "system"; content := Plain systemPrompt |};
      {| role := "user"; content := Plain userPrompt |} ] in
  match imagePrompt with
  | Some imagePrompt => imagePrompt :: messages
  | None => messages
  end.

(** The [try] block of [sendGptRequest]. *)
Definition sendGptRequest_try
    (userPrompt systemPrompt : string) (temperature : Js.number)
    (baseEventData : option BaseEventData)
    (imagePrompt : option Message) (model : Model) : M (option string) :=
  max_tokens <-
    getMaxTokensForResponse (String.append userPrompt systemPrompt) model ;;
  let messages := build_messages userPrompt systemPrompt imagePrompt in
  emit (console_log (Log_Calling model max_tokens)) ;;
  response <- create {| model := model; messages := messages;
                        max_tokens := max_tokens;
                        temperature := temperature |} ;;
  emit (console_log (Log_ResponseTime model)) ;;
  match baseEventData with
  | Some baseEventData =>
      insert (usage_event baseEventData model messages response)
  | None => ret tt
  end ;;
  ret (first_content response).

(** [sendGptRequest].  The retry in the [catch] block calls the function
    again with six arguments, so [imagePrompt] and [model] take their
    defaults there.  Every call consumes one provider answer before it
    can recurse, so [fuel] above the number of answers left is never
    used up. *)
Fixpoint sendGptRequest_fuel (fuel : nat)
    (userPrompt systemPrompt : string) (temperature : Js.number)
    (baseEventData : option BaseEventData) (retries delay : Z)
    (imagePrompt : option Message) (model : Model) : M (option string) :=
  match fuel with
  | O => fun s => (Pending, [], s)
  | S fuel =>
      emit (console_log (Log_UserPrompt userPrompt)) ;;
      emit (console_log (Log_SystemPrompt systemPrompt)) ;;
      try_catch
        (sendGptRequest_try userPrompt systemPrompt temperature
           baseEventData imagePrompt model)
        (fun error =>
           if (retries =? 0) || status_is_not_429 error then
             emit (console_error error) ;;
             throw error
           else
             emit (console_log (Log_Received429 retries delay)) ;;
             emit (setTimeout delay) ;;
             sendGptRequest_fuel fuel userPrompt systemPrompt temperature
               baseEventData (retries - 1) (delay * 2)
               default_imagePrompt default_model)
  end.

Definition sendGptRequest
    (userPrompt systemPrompt : string) (temperature : Js.number)
    (baseEventData : option BaseEventData) (retries delay : Z)
    (imagePrompt : option Message) (model : Model) : M (option string) :=
  fun s =>
    sendGptRequest_fuel (S (List.length s)) userPrompt systemPrompt
      temperature baseEventData retries delay imagePrompt model s.

(** [(result) => result.data] *)
Definition data (result : SafeParseReturnType) : Js.value :=
  match result with
  | SafeParseSuccess d => d
  | SafeParseError _ => Js.Undefined
  end.

(** What the [try] block of [sendGptRequestWithSchema] does with the
    text the request returned: reject an empty one, strip the code
    fences, parse, and validate the value or each element of the
    array. *)
Definition validate_response (zodSchema : ZodSchema)
    (gptResponse : option string) : Result Js.value :=
  match gptResponse with
  | None | Some "" =>
      Err (Js.new_Error
             "/n/n/n/n **** Empty response from GPT **** /n/n/n/n")
  | Some gptResponse =>
      let gptResponse := removeMarkdownCodeblocks gptResponse in
      let extractedInfo := parse gptResponse in
      match extractedInfo with
      | Js.Array items =>
          let validatedInfo := map (safeParse zodSchema) items in
          let failedValidations :=
            filter (fun result => negb (success result)) validatedInfo in
          if (0 <? List.length failedValidations)%nat then
            Err (Js.new_Error
                   (String.append
                      "Invalid response from GPT - object is not able to be parsed using the provided schema: "
                      (JSON_stringify _ failedValidations)))
          else
            Ok (Js.Array (map data validatedInfo))
      | _ =>
          match safeParse zodSchema extractedInfo with
          | SafeParseSuccess d => Ok d
          | SafeParseError error =>
              Err (Js.new_Error
                     (String.append
                        "Invalid response from GPT - object is not able to be parsed using the provided schema: "
                        (JSON_stringify _ error)))
          end
      end
  end.

(** The [try] block inside the loop of [sendGptRequestWithSchema]. *)
Definition sendGptRequestWithSchema_try
    (userPrompt systemPrompt : string) (zodSchema : ZodSchema)
    (temperature : Js.number) (baseEventData : option BaseEventData)
  : M Js.value :=
  gptResponse <- sendGptRequest userPrompt systemPrompt temperature
                   baseEventData default_retries default_delay
                   default_imagePrompt default_model ;;
  lift (validate_response zodSchema gptResponse).

(** The [while (retries < maxRetries)] loop, entered with the counter at
    [retries]; [fuel] bounds the iterations still possible. *)
Fixpoint sendGptRequestWithSchema_loop (fuel : nat) (retries : Z)
    (userPrompt systemPrompt : string) (zodSchema : ZodSchema)
    (maxRetries : Z) (temperature : Js.number)
    (baseEventData : option BaseEventData) : M Js.value :=
  if retries <? maxRetries then
    match fuel with
    | O => fun s => (Pending, [], s)
    | S fuel =>
        try_catch
          (sendGptRequestWithSchema_try userPrompt systemPrompt zodSchema
             temperature baseEventData)
          (fun error =>
             emit (console_log
                     (Log_ErrorDuringRequest (Js.message error))) ;;
             sendGptRequestWithSchema_loop fuel (retries + 1) userPrompt
               systemPrompt zodSchema maxRetries temperature baseEventData)
    end
  else
    throw (Js.new_Error
             (String.append "Max retries exceeded for GPT request: "
                userPrompt)).

Definition default_maxRetries : Z := 3.

Definition sendGptRequestWithSchema
    (userPrompt systemPrompt : string) (zodSchema : ZodSchema)
    (maxRetries : Z) (temperature : Js.number)
    (baseEventData : option BaseEventData) : M Js.value :=
  sendGptRequestWithSchema_loop (Z.to_nat maxRetries) 0 userPrompt
    systemPrompt zodSchema maxRetries temperature baseEventData.

Definition sendGptVisionRequest
    (userPrompt systemPrompt snapshotUrl : string) (temperature : Js.number)
    (baseEventData : option BaseEventData) (retries delay : Z)
  : M (option string) :=
  let '(model, imagePrompt) :=
    if (0 <? String.length snapshotUrl)%nat then
      let prompt := parseTemplate "dev" "vision" "user" in
      (gpt_4_vision_preview,
       Some {| role := "user";
               content := Parts [ image_url snapshotUrl "high";
                                  text prompt ] |})
    else
      (gpt_4_turbo_preview, None) in
  sendGptRequest userPrompt systemPrompt temperature baseEventData retries
    delay imagePrompt model.

End RequestLayer.

(** ** Reading a run *)

Section Runs.
Context {env : Env}.

Definition settled_of {A} (run : Settled A * list Effect * Script)
  : Settled A := fst (fst run).
Definition trace_of {A} (run : Settled A * list Effect * Script)
  : list Effect := snd (fst run).
Definition rest_of {A} (run : Settled A * list Effect * Script)
  : Script := snd run.

(** The value and the console output of [getMaxTokensForResponse]; the
    function neither reads nor consumes provider answers. *)
Definition budget (inputText : string) (model : Model) : Z :=
  match settled_of (getMaxTokensForResponse inputText model []) with
  | Return n => n
  | _ => 0
  end.

Definition budget_log (inputText : string) (model : Model) : list Effect :=
  trace_of (getMaxTokensForResponse inputText model []).

(** The two lines every call of [sendGptRequest] prints first. *)
Definition opening (userPrompt systemPrompt : string) : list Effect :=
  [console_log (Log_UserPrompt userPrompt);
   console_log (Log_SystemPrompt systemPrompt)].

(** The request one attempt of [sendGptRequest] sends. *)
Definition dispatched (userPrompt systemPrompt : string)
    (temperature : Js.number) (imagePrompt : option Message)
    (model : Model) : Request :=
  {| model := model;
     messages := build_messages userPrompt systemPrompt imagePrompt;
     max_tokens := budget (String.append userPrompt systemPrompt) model;
     temperature := temperature |}.

(** A request carries the budget computed for its own model. *)
Definition carries_budget (inputText : string) (request : Request) : Prop :=
  max_tokens request = budget inputText (model request).

(** The budget rule as the code keeps it: when the input and the
    padding fit in the window of the request's model, the ceiling is
    positive and the three add up to at most the window; when they do
    not fit, the ceiling is half the window. *)
Definition within_window (inputTokens : Z) (request : Request) : Prop :=
  let window := CONTEXT_WINDOW (model request) in
  let padding := - ((- window) / 100) in
  (inputTokens + padding < window ->
   0 < max_tokens request /\
   max_tokens request + inputTokens + padding <= window)
  /\ (window <= inputTokens + padding ->
      max_tokens request = (window + 1) / 2).

(** The delays of [n] successive retries: each doubles the one before. *)
Fixpoint delays_from (delay : Z) (n : nat) : list Z :=
  match n with
  | O => []
  | S n => delay :: delays_from (delay * 2) n
  end.

End Runs.

(** ** A sample environment

    Stand-ins for the collaborators, used to run the functions on concrete
    inputs: a tokenizer that yields one token per character, a fence
    stripper for text wrapped in triple backticks, a parser that knows two
    documents, and an event store that accepts every write. *)

Fixpoint replicate (n : nat) (c : ascii) : string :=
  match n with
  | O => EmptyString
  | S n => String c (replicate n c)
  end.

Definition one_token_per_character (s : string) : Result (list Z) :=
  Ok (map (fun c => Z.of_nat (nat_of_ascii c)) (list_ascii_of_string s)).

Definition strip_fences (s : string) : string :=
  if String.prefix "```" s
  then String.substring 3 (String.length s - 6) s
  else s.

Definition parse_sample (s : string) : Js.value :=
  if String.eqb s "[1, 2]" then Js.Array [Js.Number 1; Js.Number 2]
  else if String.eqb s "7" then Js.Number 7
  else if String.eqb s "{}" then Js.Object []
  else Js.Undefined.

Definition sample_env : Env :=
  {| BaseEventData := unit;
     encode := one_token_per_character;
     removeMarkdownCodeblocks := strip_fences;
     parse := parse_sample;
     parseTemplate := fun _ _ _ => "Describe the attached snapshot.";
     events_insert := fun _ => None;
     JSON_stringify := fun _ _ => "[object]" |}.

(** A schema that accepts numbers and one that accepts nothing. *)
Definition number_schema : ZodSchema :=
  {| safeParse := fun v =>
       match v with
       | Js.Number n => SafeParseSuccess (Js.Number n)
       | _ => SafeParseError ["Expected number"]
       end |}.

Definition never_schema : ZodSchema :=
  {| safeParse := fun _ => SafeParseError ["Invalid input"] |}.

(** Two errors that carry the HTTP status under [response], the shape
    the [catch] block of [sendGptRequest] looks for. *)
Definition rate_limited : Js.Error :=
  {| Js.message := "Rate limit reached";
     Js.status := None;
     Js.response_status := Some 429 |}.

Definition server_error : Js.Error :=
  {| Js.message := "Internal server error";
     Js.status := None;
     Js.response_status := Some 500 |}.

(** The errors the OpenAI client throws ([APIError] and its subclasses,
    [RateLimitError] for a 429): the HTTP status is in [status] and there
    is no [response]. *)
Definition client_error (code : Z) (msg : string) : Js.Error :=
  {| Js.message := msg;
     Js.status := Some code;
     Js.response_status := None |}.

Definition provider_rate_limit : Js.Error :=
  client_error 429 "429 Rate limit reached for requests".

Definition answer (c : string) : Response :=
  {| choices := [Some c];
     usage := Some {| prompt_tokens := Some 12;
                      completion_tokens := Some 5 |} |}.

(** 8200 characters: more than the 8192-token window of gpt-4-0613. *)
Definition long_prompt : string := replicate (Z.to_nat 8200) "a"%char.

(** A call on the long prompt that the provider answers. *)
Definition over_budget_run :=
  sendGptRequest (env := sample_env) long_prompt "" default_temperature None
    default_retries default_delay None gpt_4_0613 [Ok (answer "ok")].

(** A call that is rate-limited twice and then answered, with a usage
    event recorded. *)
Definition backoff_run :=
  sendGptRequest (env := sample_env) "Hi" default_systemPrompt
    default_temperature (Some tt) 10 60000 None default_model
    [Err rate_limited; Err rate_limited; Ok (answer "ok")].

(** A call that meets a server error, and a vision-style call that is
    rate-limited once. *)
Definition failing_run :=
  sendGptRequest (env := sample_env) "Hi" default_systemPrompt
    default_temperature None 10 60000 None default_model
    [Err server_error; Ok (answer "late")].

Definition snapshot_block : Message :=
  {| role := "user";
     content := Parts [ image_url "https://example.com/snapshot.png" "high";
                        text "Describe the attached snapshot." ] |}.

Definition limited_vision_run :=
  sendGptRequest (env := sample_env) "Hi" default_systemPrompt
    default_temperature None 10 60000 (Some snapshot_block)
    gpt_4_vision_preview [Err rate_limited; Ok (answer "ok")].

(** Extractor runs: a schema that rejects three answers (one of them
    empty), a rate limit inside a single attempt, and a fenced array. *)
Definition rejected_run :=
  sendGptRequestWithSchema (env := sample_env) "Extract" "Reply in JSON."
    never_schema 3 default_temperature None
    [Ok (answer "7"); Ok {| choices := []; usage := None |};
     Ok (answer "[1, 2]"); Ok (answer "7")].

Definition limited_extractor_run :=
  sendGptRequestWithSchema (env := sample_env) "Extract" "Reply in JSON."
    number_schema 1 default_temperature None
    [Err rate_limited; Ok (answer "7")].

Definition fenced_array_run :=
  sendGptRequestWithSchema (env := sample_env) "Extract" "Reply in JSON."
    number_schema 3 default_temperature None
    [Ok (answer "```[1, 2]```")].

(** The same three calls when the provider's 429 arrives as the client
    throws it. *)
Definition throttled_run :=
  sendGptRequest (env := sample_env) "Hi" default_systemPrompt
    default_temperature (Some tt) 10 60000 None default_model
    [Err provider_rate_limit; Err provider_rate_limit; Ok (answer "ok")].

Definition throttled_vision_run :=
  sendGptRequest (env := sample_env) "Hi" default_systemPrompt
    default_temperature None 10 60000 (Some snapshot_block)
    gpt_4_vision_preview [Err provider_rate_limit; Ok (answer "ok")].



(** ** Further observations of a run *)

Section Observations.
Context {env : Env}.

(** The usage events written, in order. *)
Fixpoint events_of (t : list Effect) : list (Event BaseEventData) :=
  match t with
  | [] => []
  | db_events_insert event :: t' => event :: events_of t'
  | _ :: t' => events_of t'
  end.

(** The messages of the attempts the extractor gave up on, in order. *)
Fixpoint attempt_errors_of (t : list Effect) : list string :=
  match t with
  | [] => []
  | console_log (Log_ErrorDuringRequest message) :: t' =>
      message :: attempt_errors_of t'
  | _ :: t' => attempt_errors_of t'
  end.

(** The "Received 429" lines of [n] successive retries. *)
Fixpoint countdown (retries delay : Z) (n : nat) : list (Z * Z) :=
  match n with
  | O => []
  | S n => (retries, delay) :: countdown (retries - 1) (delay * 2) n
  end.

(** The error [sendGptRequestWithSchema] throws after its loop. *)
Definition max_retries_exceeded (userPrompt : string) : Js.Error :=
  Js.new_Error
    (String.append "Max retries exceeded for GPT request: " userPrompt).

(** Whether [getMaxTokensForResponse] takes its [catch] branch: the
    tokenizer throws, or the input and the padding fill the window. *)
Definition falls_back (inputText : string) (model : Model) : Prop :=
  match encode inputText with
  | Ok tokens =>
      CONTEXT_WINDOW model - Z.of_nat (List.length tokens)
        - (- ((- CONTEXT_WINDOW model) / 100)) <= 0
  | Err _ => True
  end.

End Observations.

(** An environment whose tokenizer rejects every text, as gpt-tokenizer
    does on a disallowed special token. *)
Definition tokenizer_error : Js.Error :=
  Js.new_Error "Disallowed special token found: <|endoftext|>".

Definition failing_tokenizer_env : Env :=
  {| BaseEventData := unit;
     encode := fun _ => Err tokenizer_error;
     removeMarkdownCodeblocks := strip_fences;
     parse := parse_sample;
     parseTemplate := fun _ _ _ => "Describe the attached snapshot.";
     events_insert := fun _ => None;
     JSON_stringify := fun _ _ => "[object]" |}.

(** An environment whose event store refuses every write. *)
Definition store_error : Js.Error :=
  Js.new_Error "could not write the event".

Definition failing_store_env : Env :=
  {| BaseEventData := unit;
     encode := one_token_per_character;
     removeMarkdownCodeblocks := strip_fences;
     parse := parse_sample;
     parseTemplate := fun _ _ _ => "Describe the attached snapshot.";
     events_insert := fun _ => Some store_error;
     JSON_stringify := fun _ _ => "[object]" |}.

(** Extractor runs: a provider error before a valid answer, no attempt
    allowed at all, and an array with one element the schema refuses. *)
Definition recovered_run :=
  sendGptRequestWithSchema (env := sample_env) "Extract" "Reply in JSON."
    number_schema 3 default_temperature None
    [Err server_error; Ok (answer "7")].

Definition no_attempt_run :=
  sendGptRequestWithSchema (env := sample_env) "Extract" "Reply in JSON."
    number_schema 0 default_temperature None [Ok (answer "7")].

(** ** Text of a Jira description ([src/server/utils/jira.ts])

    Jira stores descriptions in the Atlassian Document Format, a tree of
    JSON nodes.  An object is read through its first field of a given
    name (a JavaScript object has each key once). *)

Fixpoint get (fields : list (string * Js.value)) (key : string)
  : option Js.value :=
  match fields with
  | [] => None
  | (k, v) :: fields' => if String.eqb k key then Some v else get fields' key
  end.

(** JavaScript truthiness. *)
Definition truthy (v : Js.value) : bool :=
  match v with
  | Js.Undefined | Js.Null => false
  | Js.Bool b => b
  | Js.Number n => negb (n =? 0)
  | Js.Str s => negb (String.eqb s "")
  | Js.Array _ | Js.Object _ => true
  end.

(** [adfNode.type === "text" && typeof adfNode.text === "string"], with
    the text when it holds. *)
Definition text_of_node (fields : list (string * Js.value)) : option string :=
  match get fields "type", get fields "text" with
  | Some (Js.Str "text"), Some (Js.Str t) => Some t
  | _, _ => None
  end.

Fixpoint extractTextFromADF (adfNode : Js.value) : string :=
  match adfNode with
  | Js.Array nodes =>
      (fix each (nodes : list Js.value) (text : string) : string :=
         match nodes with
         | [] => text
         | node :: nodes' =>
             each nodes' (String.append text (extractTextFromADF node))
         end) nodes ""
  | Js.Object fields =>
      match text_of_node fields with
      | Some t => String.append "" t
      | None =>
          (fix content (rest : list (string * Js.value)) : string :=
             match rest with
             | [] => ""
             | (k, v) :: rest' =>
                 if String.eqb k "content" then
                   if truthy v
                   then String.append "" (extractTextFromADF v)
                   else ""
                 else content rest'
             end) fields
      end
  | _ => ""
  end.

(** Nodes of a document, and strings joined with nothing between them. *)
Definition text_node (t : string) : Js.value :=
  Js.Object [("type", Js.Str "text"); ("text", Js.Str t)].

Definition paragraph (children : list Js.value) : Js.value :=
  Js.Object [("type", Js.Str "paragraph"); ("content", Js.Array children)].

Definition doc (blocks : list Js.value) : Js.value :=
  Js.Object [("version", Js.Number 1); ("type", Js.Str "doc");
             ("content", Js.Array blocks)].

Definition join (parts : list string) : string :=
  fold_right String.append "" parts.

(** ** Creating a todo from an issue, and cloning for a source map

    [createTodo] is the caller that feeds issues to the extractor
    through [getExtractedIssue]; [cloneAndGetSourceMap] is in
    [src/server/api/utils.ts].  Their collaborators (database, GitHub,
    git clone, settings, source map, issue extraction, research, plan)
    are parameters, each giving the result of one call or the error it
    throws.  A computation carries the variable [cleanupClone] (the path
    whose clone is to be removed, once it is set) and lists the calls it
    makes. *)

Module TodoModel.

(** [s.split(sep)] for a one-character separator. *)
Fixpoint split_on (sep : ascii) (s : string) : list string :=
  match s with
  | EmptyString => [EmptyString]
  | String c s' =>
      if Ascii.eqb c sep then EmptyString :: split_on sep s'
      else match split_on sep s' with
           | part :: parts => String c part :: parts
           | [] => [String c EmptyString]
           end
  end.

(** [s.trim()] on ASCII text: tab, line feed, vertical tab, form feed,
    carriage return and space are removed at both ends. *)
Definition is_space (c : ascii) : bool :=
  let n := nat_of_ascii c in
  (Nat.leb 9 n && Nat.leb n 13) || Nat.eqb n 32.

Fixpoint trim_start (s : string) : string :=
  match s with
  | EmptyString => EmptyString
  | String c s' => if is_space c then trim_start s' else s
  end.

Fixpoint trim_end (s : string) : string :=
  match s with
  | EmptyString => EmptyString
  | String c s' =>
      let rest := trim_end s' in
      if is_space c && String.eqb rest "" then EmptyString
      else String c rest
  end.

Definition trim (s : string) : string := trim_end (trim_start s).

(** [!x] for a string that may be undefined. *)
Definition falsy (x : option string) : bool :=
  match x with
  | None => true
  | Some s => String.eqb s ""
  end.

(** The fields of the GitHub issue that are read.  [title] is a string in
    the GitHub type, so the last alternative of
    [extractedIssue.commitTitle ?? issue.title ?? "New Todo"] never
    applies. *)
Record Issue := { title : string; body : option string; number : Z }.

Record ExtractedIssue := { commitTitle : option string }.

(** The row [db.todos.create] receives; its status is always
    [TodoStatus.TODO]. *)
Record NewTodo := {
  projectId : Z;
  description : string;
  name : string;
  issueId : Z;
  position : Z
}.

Record Todo := { id : Z; fields : NewTodo }.

Class World := {
  Settings : Type;
  AGENT_REPOS : option string;
  db_todos_findByOptional : Z -> Z -> Result (option Todo);
  getIssue : string -> string -> string -> Z -> Result Issue;
  cloneRepo : string -> string -> Result string;
  cleanup : string -> Result unit;
  getRepoSettings : string -> string -> Result Settings;
  getSourceMap : string -> Settings -> Result string;
  getExtractedIssue : string -> string -> Result ExtractedIssue;
  db_todos_create : NewTodo -> Result Todo;
  researchIssue : string -> Z -> Z -> string -> Z -> Result unit;
  getOrGeneratePlan : Z -> Z -> string -> string -> Result unit
}.

Inductive Call :=
| call_findByOptional (projectId issueId : Z)
| call_getIssue (owner name token : string) (issueNumber : Z)
| call_cloneRepo (repoName token : string)
| call_getRepoSettings (path repo : string)
| call_getSourceMap (path : string)
| call_getExtractedIssue (sourceMap issueText : string)
| call_todos_create (todo : NewTodo)
| call_researchIssue (githubIssue : string) (todoId issueId : Z)
    (rootDir : string) (projectId : Z)
| call_getOrGeneratePlan (projectId issueId : Z)
    (githubIssue rootPath : string)
| call_cleanup (path : string)
| log_already_exists (issueNumber : Z)
| log_skipping_research (repo : string) (issueNumber : Z)
    (agentRepos : list string)
| log_created (issueNumber : Z)
| error_while_creating (issueNumber : Z) (error : Js.Error).

Definition P (A : Type) : Type :=
  option string -> Result A * list Call * option string.

Definition ret {A} (a : A) : P A := fun st => (Ok a, [], st).

Definition throw {A} (e : Js.Error) : P A := fun st => (Err e, [], st).

Definition bind {A B} (m : P A) (k : A -> P B) : P B :=
  fun st =>
    match m st with
    | (Ok a, t, st') => let '(r, t', st'') := k a st' in (r, t ++ t', st'')
    | (Err e, t, st') => (Err e, t, st')
    end.

(** One call to a collaborator: it is recorded, and its result or error
    is the outcome. *)
Definition perform {A} (c : Call) (r : Result A) : P A :=
  fun st => (r, [c], st).

Definition print (c : Call) : P unit := fun st => (Ok tt, [c], st).

(** [let cleanupClone: (() => Promise<void>) | undefined;] *)
Definition declare_cleanupClone : P unit := fun _ => (Ok tt, [], None).

(** [cleanupClone = cleanup] *)
Definition set_cleanupClone (path : string) : P unit :=
  fun _ => (Ok tt, [], Some path).

Definition try_catch {A} (m : P A) (handler : Js.Error -> P A) : P A :=
  fun st =>
    match m st with
    | (Err e, t, st') =>
        let '(r, t', st'') := handler e st' in (r, t ++ t', st'')
    | done => done
    end.

(** [try { m } finally { finalizer }]: the finalizer runs in every case,
    and an error it throws replaces the outcome of [m]. *)
Definition try_finally {A} (m : P A) (finalizer : P unit) : P A :=
  fun st =>
    let '(r, t, st') := m st in
    match finalizer st' with
    | (Ok _, t', st'') => (r, t ++ t', st'')
    | (Err e, t', st'') => (Err e, t ++ t', st'')
    end.

Section Functions.
Context {world : World}.

(** [(process.env.AGENT_REPOS ?? "").split(",")] *)
Definition agentRepos : list string :=
  split_on ","%char (match AGENT_REPOS with Some v => v | None => "" end).

(** [if (cleanupClone) { await cleanupClone(); }] *)
Definition run_cleanup : P unit :=
  fun st =>
    match st with
    | Some path => perform (call_cleanup path) (cleanup path) st
    | None => ret tt st
    end.

Definition createTodo (repo : string) (projectId issueNumber : Z)
    (accessToken : option string) : P (option Todo) :=
  let parts := split_on "/"%char repo in
  let repoOwner := nth_error parts 0 in
  let repoName := nth_error parts 1 in
  match repoOwner, repoName with
  | Some repoOwner', Some repoName' =>
      if falsy repoOwner || falsy repoName then
        throw (Js.new_Error "Invalid repo name")
      else
        match accessToken with
        | Some token =>
            if falsy accessToken then
              throw (Js.new_Error "Access token is required")
            else
              bind (perform (call_findByOptional projectId issueNumber)
                      (db_todos_findByOptional projectId issueNumber))
                (fun existingTodo =>
              match existingTodo with
              | Some _ =>
                  bind (print (log_already_exists issueNumber))
                    (fun _ => ret None)
              | None =>
              bind (perform
                      (call_getIssue repoOwner' repoName' token issueNumber)
                      (getIssue repoOwner' repoName' token issueNumber))
                (fun issue =>
              let issueBody :=
                match body issue with
                | Some b =>
                    if String.eqb b "" then ""
                    else String.append (String "010"%char "") b
                | None => ""
                end in
              let issueText := String.append (title issue) issueBody in
              bind declare_cleanupClone (fun _ =>
              try_finally
                (try_catch
                   (bind (perform (call_cloneRepo repo token)
                            (cloneRepo repo token))
                      (fun rootPath =>
                    bind (set_cleanupClone rootPath) (fun _ =>
                    bind (perform (call_getRepoSettings rootPath repo)
                            (getRepoSettings rootPath repo))
                      (fun repoSettings =>
                    bind (perform (call_getSourceMap rootPath)
                            (getSourceMap rootPath repoSettings))
                      (fun sourceMap =>
                    bind (perform (call_getExtractedIssue sourceMap issueText)
                            (getExtractedIssue sourceMap issueText))
                      (fun extractedIssue =>
                    let todo :=
                      {| projectId := projectId;
                         description :=
                           String.append (title issue)
                             (String.append
                                (String "010"%char (String "010"%char ""))
                                issueBody);
                         name := match commitTitle extractedIssue with
                                 | Some t => t
                                 | None => title issue
                                 end;
                         issueId := number issue;
                         position := number issue |} in
                    bind (perform (call_todos_create todo)
                            (db_todos_create todo))
                      (fun newTodo =>
                    bind
                      (if existsb (String.eqb (trim repo)) agentRepos then
                         bind (perform
                                 (call_researchIssue issueText (id newTodo)
                                    (number issue) rootPath projectId)
                                 (researchIssue issueText (id newTodo)
                                    (number issue) rootPath projectId))
                           (fun _ =>
                         perform
                           (call_getOrGeneratePlan projectId (number issue)
                              issueText rootPath)
                           (getOrGeneratePlan projectId (number issue)
                              issueText rootPath))
                       else
                         print (log_skipping_research repo (number issue)
                                  agentRepos))
                      (fun _ =>
                    bind (print (log_created (number issue))) (fun _ =>
                    ret (Some newTodo))))))))))
                   (fun error =>
                      bind (print (error_while_creating (number issue) error))
                        (fun _ => ret None)))
                run_cleanup))
              end)
        | None => throw (Js.new_Error "Access token is required")
        end
  | _, _ => throw (Js.new_Error "Invalid repo name")
  end.

Definition cloneAndGetSourceMap (repo accessToken : string) : P string :=
  bind declare_cleanupClone (fun _ =>
  try_finally
    (bind (perform (call_cloneRepo repo accessToken)
             (cloneRepo repo accessToken))
       (fun path =>
     bind (set_cleanupClone path) (fun _ =>
     bind (perform (call_getRepoSettings path repo)
             (getRepoSettings path repo))
       (fun repoSettings =>
     perform (call_getSourceMap path) (getSourceMap path repoSettings)))))
    run_cleanup).

End Functions.

(** The clones removed, and whether a call is research or planning. *)
Fixpoint cleanups_of (t : list Call) : list string :=
  match t with
  | [] => []
  | call_cleanup path :: t' => path :: cleanups_of t'
  | _ :: t' => cleanups_of t'
  end.

Definition is_agent_work (c : Call) : bool :=
  match c with
  | call_researchIssue _ _ _ _ _ | call_getOrGeneratePlan _ _ _ _ => true
  | _ => false
  end.

(** Whether [repo] passes the first guard of [createTodo]. *)
Definition valid_repo (repo : string) : bool :=
  let parts := split_on "/"%char repo in
  negb (falsy (nth_error parts 0) || falsy (nth_error parts 1)).

Fixpoint contains (c : ascii) (s : string) : bool :=
  match s with
  | EmptyString => false
  | String c' s' => Ascii.eqb c' c || contains c s'
  end.

(** A world in which every collaborator succeeds, and one in which the
    issue extraction throws after the clone. *)
Definition sample_issue (issueNumber : Z) : Issue :=
  {| title := "Fix login"; body := Some "Steps to reproduce";
     number := issueNumber |}.

Definition sample_world : World :=
  {| Settings := unit;
     AGENT_REPOS := Some "acme/agent, acme/other";
     db_todos_findByOptional := fun _ issueNumber =>
       Ok (if issueNumber =? 7
           then Some {| id := 1;
                        fields := {| projectId := 1; description := "";
                                     name := "Old"; issueId := 7;
                                     position := 7 |} |}
           else None);
     getIssue := fun _ _ _ issueNumber => Ok (sample_issue issueNumber);
     cloneRepo := fun repo _ => Ok (String.append "/tmp/" repo);
     cleanup := fun _ => Ok tt;
     getRepoSettings := fun _ _ => Ok tt;
     getSourceMap := fun _ _ => Ok "src/index.ts";
     getExtractedIssue := fun _ _ => Ok {| commitTitle := Some "Fix login" |};
     db_todos_create := fun todo => Ok {| id := 2; fields := todo |};
     researchIssue := fun _ _ _ _ _ => Ok tt;
     getOrGeneratePlan := fun _ _ _ _ => Ok tt |}.

Definition failing_extraction_world : World :=
  {| Settings := unit;
     AGENT_REPOS := None;
     db_todos_findByOptional := fun _ _ => Ok None;
     getIssue := fun _ _ _ issueNumber => Ok (sample_issue issueNumber);
     cloneRepo := fun repo _ => Ok (String.append "/tmp/" repo);
     cleanup := fun _ => Ok tt;
     getRepoSettings := fun _ _ => Ok tt;
     getSourceMap := fun _ _ => Ok "src/index.ts";
     getExtractedIssue := fun _ _ =>
       Err (Js.new_Error "Max retries exceeded for GPT request: ");
     db_todos_create := fun todo => Ok {| id := 2; fields := todo |};
     researchIssue := fun _ _ _ _ _ => Ok tt;
     getOrGeneratePlan := fun _ _ _ _ => Ok tt |}.

Definition failing_cleanup_world : World :=
  {| Settings := unit;
     AGENT_REPOS := None;
     db_todos_findByOptional := fun _ _ => Ok None;
     getIssue := fun _ _ _ issueNumber => Ok (sample_issue issueNumber);
     cloneRepo := fun repo _ => Ok (String.append "/tmp/" repo);
     cleanup := fun _ => Err (Js.new_Error "EBUSY: directory in use");
     getRepoSettings := fun _ _ => Ok tt;
     getSourceMap := fun _ _ => Ok "src/index.ts";
     getExtractedIssue := fun _ _ => Ok {| commitTitle := None |};
     db_todos_create := fun todo => Ok {| id := 2; fields := todo |};
     researchIssue := fun _ _ _ _ _ => Ok tt;
     getOrGeneratePlan := fun _ _ _ _ => Ok tt |}.

End TodoModel.

(** * Properties *)

(** ** Arithmetic of the budget *)

(** The binary64 product [maxContextTokens * 0.01], rounded up, is the
    exact ceiling of one percent of the window for every model. *)
Lemma context_padding_exact (model : Model) :
  context_padding (CONTEXT_WINDOW model) = - ((- CONTEXT_WINDOW model) / 100).
Proof. destruct model; vm_compute; reflexivity. Qed.

Lemma context_padding_values (model : Model) :
  context_padding (CONTEXT_WINDOW model) =
  match model with gpt_4_0613 => 82 | _ => 1280 end.
Proof. destruct model; vm_compute; reflexivity. Qed.

(** [Math.round(CONTEXT_WINDOW[model] / 2)] is half the window, exactly. *)
Lemma half_context_exact (model : Model) :
  half_context model = (CONTEXT_WINDOW model + 1) / 2 /\
  2 * half_context model = CONTEXT_WINDOW model.
Proof. destruct model; vm_compute; split; reflexivity. Qed.

Lemma lit_0_01_nearest :
  Js.lit_0_01 = Js.div (Js.of_Z 1) (Js.of_Z 100).
Proof. vm_compute; reflexivity. Qed.

Lemma lit_0_2_nearest :
  Js.lit_0_2 = Js.div (Js.of_Z 2) (Js.of_Z 10).
Proof. vm_compute; reflexivity. Qed.

Section Budget.
Context {env : Env}.

(** The calculator always settles with a value, consumes no provider
    answer and talks neither to the provider nor to a timer. *)
Lemma getMaxTokensForResponse_returns (inputText : string) (model : Model)
    (s : Script) :
  exists n t,
    getMaxTokensForResponse inputText model s = (Return n, t, s) /\
    network_and_timers t = [] /\ requests_of t = [] /\
    timeouts_of t = [] /\ retry_lines_of t = [].
Proof.
  unfold getMaxTokensForResponse, getMaxTokensForResponse_try, try_catch,
    bind, lift.
  destruct (encode inputText) as [toks | e]; cbn.
  - destruct (_ <=? 0); cbn; eauto 10.
  - eauto 10.
Qed.

(** C1.  When the token estimate plus the padding (the ceiling of one
    percent of the context window) leaves a positive remainder,
    [getMaxTokensForResponse] returns
    [min (contextWindow - inputTokens - padding) maxOutputTokens], and
    that value is positive. *)
Theorem budget_within_window
    (inputText : string) (model : Model) (toks : list Z) (s : Script) :
  encode inputText = Ok toks ->
  let inputTokens := Z.of_nat (List.length toks) in
  let padding := - ((- CONTEXT_WINDOW model) / 100) in
  0 < CONTEXT_WINDOW model - inputTokens - padding ->
  getMaxTokensForResponse inputText model s =
    (Return (Z.min (CONTEXT_WINDOW model - inputTokens - padding)
                   (MAX_OUTPUT model)), [], s)
  /\ 0 < Z.min (CONTEXT_WINDOW model - inputTokens - padding)
               (MAX_OUTPUT model).
Proof.
  intros Henc inputTokens padding Hpos.
  unfold getMaxTokensForResponse, getMaxTokensForResponse_try, try_catch,
    bind, lift.
  rewrite Henc; cbn.
  rewrite context_padding_exact.
  fold inputTokens padding.
  destruct (Z.leb_spec (CONTEXT_WINDOW model - inputTokens - padding) 0)
    as [Hle | Hgt]; [lia |].
  cbn. split; [reflexivity |].
  assert (0 < MAX_OUTPUT model) by (destruct model; reflexivity).
  lia.
Qed.

End Budget.

(** C1 on a twelve-character text and gpt-4-0613: 8192 - 12 - 82 = 8098,
    capped by nothing since the output limit is 8192. *)
Lemma budget_within_window_witness :
  getMaxTokensForResponse (env := sample_env) "Hello, world" gpt_4_0613 [] =
    (Return 8098, [], [])
  /\ 0 < 8098.
Proof.
  exact (budget_within_window (env := sample_env) "Hello, world" gpt_4_0613
           (map (fun c => Z.of_nat (nat_of_ascii c))
                (list_ascii_of_string "Hello, world"))
           [] eq_refl eq_refl).
Defined.

(** ** One attempt of the dispatcher *)

Section Attempt.
Context {env : Env}.

Lemma getMaxTokensForResponse_budget (inputText : string) (model : Model)
    (s : Script) :
  getMaxTokensForResponse inputText model s =
    (Return (budget inputText model), budget_log inputText model, s).
Proof.
  unfold budget, budget_log, settled_of, trace_of.
  unfold getMaxTokensForResponse, getMaxTokensForResponse_try, try_catch,
    bind, lift.
  destruct (encode inputText) as [toks | e]; cbn.
  - destruct (_ <=? 0); reflexivity.
  - reflexivity.
Qed.

Lemma budget_log_silent (inputText : string) (model : Model) :
  network_and_timers (budget_log inputText model) = [] /\
  requests_of (budget_log inputText model) = [] /\
  timeouts_of (budget_log inputText model) = [] /\
  retry_lines_of (budget_log inputText model) = [].
Proof.
  destruct (getMaxTokensForResponse_returns inputText model [])
    as (n & t & Hrun & Hsilent).
  unfold budget_log, trace_of. rewrite Hrun. exact Hsilent.
Qed.

(** What the [try] block does, by the provider's next answer. *)
Lemma sendGptRequest_try_run
    (userPrompt systemPrompt : string) (temperature : Js.number)
    (baseEventData : option BaseEventData)
    (imagePrompt : option Message) (model : Model) (s : Script) :
  let request :=
    dispatched userPrompt systemPrompt temperature imagePrompt model in
  let sent :=
    budget_log (String.append userPrompt systemPrompt) model ++
    [console_log (Log_Calling model (max_tokens request));
     chat_completions_create request] in
  sendGptRequest_try userPrompt systemPrompt temperature baseEventData
    imagePrompt model s =
  match s with
  | [] => (Pending, sent, [])
  | Err e :: s' => (Throw e, sent, s')
  | Ok response :: s' =>
      match baseEventData with
      | None =>
          (Return (first_content response),
           sent ++ [console_log (Log_ResponseTime model)], s')
      | Some b =>
          let event :=
            usage_event b model
              (build_messages userPrompt systemPrompt imagePrompt)
              response in
          match events_insert event with
          | None =>
              (Return (first_content response),
               sent ++ [console_log (Log_ResponseTime model);
                        db_events_insert event], s')
          | Some e =>
              (Throw e,
               sent ++ [console_log (Log_ResponseTime model);
                        db_events_insert event], s')
          end
      end
  end.
Proof.
  intros request sent. subst request sent.
  unfold sendGptRequest_try.
  unfold bind at 1. rewrite getMaxTokensForResponse_budget.
  unfold dispatched; cbn [max_tokens].
  destruct s as [| [response | e] s']; cbn.
  - reflexivity.
  - destruct baseEventData as [b |]; cbn.
    + unfold insert.
      destruct (events_insert _); cbn;
        rewrite <- ?app_assoc; reflexivity.
    + rewrite <- ?app_assoc; reflexivity.
  - reflexivity.
Qed.

End Attempt.

(** ** The dispatcher and its retry *)

Section Dispatcher.
Context {env : Env}.

(** The [try] block consumes exactly one answer unless it stays
    pending on an empty script. *)
Lemma sendGptRequest_try_consumes
    userPrompt systemPrompt temperature baseEventData imagePrompt model
    (s : Script) :
  let run := sendGptRequest_try userPrompt systemPrompt temperature
               baseEventData imagePrompt model s in
  match settled_of run with
  | Pending => s = [] /\ rest_of run = []
  | _ => exists a, s = a :: rest_of run
  end.
Proof.
  cbv zeta. rewrite sendGptRequest_try_run. cbv zeta.
  destruct s as [| [response | e] s']; cbn; eauto.
  destruct baseEventData as [b |]; cbn; eauto.
  destruct (events_insert _); cbn; eauto.
Qed.

(** One unfolding of the recursion: the [try] block runs, and the
    [catch] block either rethrows or waits and calls again. *)
Lemma sendGptRequest_fuel_unfold
    fuel userPrompt systemPrompt temperature baseEventData retries delay
    imagePrompt model (s : Script) :
  sendGptRequest_fuel (S fuel) userPrompt systemPrompt temperature
    baseEventData retries delay imagePrompt model s =
  match sendGptRequest_try userPrompt systemPrompt temperature baseEventData
          imagePrompt model s
  with
  | (Return v, t, s') =>
      (Return v, opening userPrompt systemPrompt ++ t, s')
  | (Pending, t, s') => (Pending, opening userPrompt systemPrompt ++ t, s')
  | (Throw error, t, s') =>
      if (retries =? 0) || status_is_not_429 error then
        (Throw error,
         opening userPrompt systemPrompt ++ t ++ [console_error error], s')
      else
        let again :=
          sendGptRequest_fuel fuel userPrompt systemPrompt temperature
            baseEventData (retries - 1) (delay * 2) default_imagePrompt
            default_model s' in
        (settled_of again,
         opening userPrompt systemPrompt ++ t ++
           [console_log (Log_Received429 retries delay); setTimeout delay] ++
           trace_of again,
         rest_of again)
  end.
Proof.
  cbn [sendGptRequest_fuel].
  unfold bind at 1; cbn. unfold bind at 1; cbn.
  unfold try_catch at 1.
  destruct (sendGptRequest_try userPrompt systemPrompt temperature
              baseEventData imagePrompt model s) as [[[v | error |] t] s'];
    try reflexivity.
  destruct ((retries =? 0) || status_is_not_429 error); cbn.
  - reflexivity.
  - destruct (sendGptRequest_fuel fuel userPrompt systemPrompt temperature
                baseEventData (retries - 1) (delay * 2) default_imagePrompt
                default_model s') as [[r t'] s''].
    reflexivity.
Qed.

(** The fuel is never used up: any amount above the number of answers
    left gives the run of [sendGptRequest]. *)
Lemma sendGptRequest_fuel_enough
    userPrompt systemPrompt temperature baseEventData (s : Script) :
  forall fuel retries delay imagePrompt model,
    (List.length s < fuel)%nat ->
    sendGptRequest_fuel fuel userPrompt systemPrompt temperature
      baseEventData retries delay imagePrompt model s =
    sendGptRequest userPrompt systemPrompt temperature baseEventData retries
      delay imagePrompt model s.
Proof.
  induction s as [| a0 s IH]; intros fuel retries delay imagePrompt model Hlt;
    (destruct fuel as [| fuel]; [cbn in Hlt; lia |]);
    unfold sendGptRequest; rewrite !sendGptRequest_fuel_unfold.
  all: match goal with
       | |- context [sendGptRequest_try _ _ _ _ _ _ ?script] =>
           pose proof (sendGptRequest_try_consumes userPrompt systemPrompt
                         temperature baseEventData imagePrompt model script)
             as Hlen;
           cbv zeta in Hlen;
           destruct (sendGptRequest_try userPrompt systemPrompt temperature
                       baseEventData imagePrompt model script)
             as [[[v | error |] t] s']
       end; try reflexivity.
  all: cbn [settled_of rest_of fst snd] in Hlen; destruct Hlen as [a Ha].
  - discriminate Ha.
  - injection Ha as _ <-.
    destruct ((retries =? 0) || status_is_not_429 error); [reflexivity |].
    cbv zeta. cbn [List.length].
    rewrite (IH fuel) by (cbn in Hlt; lia).
    rewrite (IH (S (List.length s))) by lia.
    reflexivity.
Qed.

(** The equation of the source function. *)
Lemma sendGptRequest_unfold
    userPrompt systemPrompt temperature baseEventData retries delay
    imagePrompt model (s : Script) :
  sendGptRequest userPrompt systemPrompt temperature baseEventData retries
    delay imagePrompt model s =
  match sendGptRequest_try userPrompt systemPrompt temperature baseEventData
          imagePrompt model s
  with
  | (Return v, t, s') =>
      (Return v, opening userPrompt systemPrompt ++ t, s')
  | (Pending, t, s') => (Pending, opening userPrompt systemPrompt ++ t, s')
  | (Throw error, t, s') =>
      if (retries =? 0) || status_is_not_429 error then
        (Throw error,
         opening userPrompt systemPrompt ++ t ++ [console_error error], s')
      else
        let again :=
          sendGptRequest userPrompt systemPrompt temperature baseEventData
            (retries - 1) (delay * 2) default_imagePrompt default_model s' in
        (settled_of again,
         opening userPrompt systemPrompt ++ t ++
           [console_log (Log_Received429 retries delay); setTimeout delay] ++
           trace_of again,
         rest_of again)
  end.
Proof.
  unfold sendGptRequest at 1. rewrite sendGptRequest_fuel_unfold.
  pose proof (sendGptRequest_try_consumes userPrompt systemPrompt
                temperature baseEventData imagePrompt model s) as Hlen.
  cbv zeta in Hlen.
  destruct (sendGptRequest_try userPrompt systemPrompt temperature
              baseEventData imagePrompt model s) as [[[v | error |] t] s'];
    try reflexivity.
  cbn [settled_of rest_of fst snd] in Hlen. destruct Hlen as [a ->].
  destruct ((retries =? 0) || status_is_not_429 error); [reflexivity |].
  cbv zeta. cbn [List.length].
  rewrite sendGptRequest_fuel_enough by lia. reflexivity.
Qed.

(** The three ways a call continues after its [try] block. *)
Lemma sendGptRequest_returns
    userPrompt systemPrompt temperature baseEventData retries delay
    imagePrompt model (s : Script) v t s' :
  sendGptRequest_try userPrompt systemPrompt temperature baseEventData
    imagePrompt model s = (Return v, t, s') ->
  sendGptRequest userPrompt systemPrompt temperature baseEventData retries
    delay imagePrompt model s =
    (Return v, opening userPrompt systemPrompt ++ t, s').
Proof. intros Htry. rewrite sendGptRequest_unfold, Htry. reflexivity. Qed.

Lemma sendGptRequest_pending
    userPrompt systemPrompt temperature baseEventData retries delay
    imagePrompt model (s : Script) t s' :
  sendGptRequest_try userPrompt systemPrompt temperature baseEventData
    imagePrompt model s = (Pending, t, s') ->
  sendGptRequest userPrompt systemPrompt temperature baseEventData retries
    delay imagePrompt model s =
    (Pending, opening userPrompt systemPrompt ++ t, s').
Proof. intros Htry. rewrite sendGptRequest_unfold, Htry. reflexivity. Qed.

Lemma sendGptRequest_catches
    userPrompt systemPrompt temperature baseEventData retries delay
    imagePrompt model (s : Script) error t s' :
  sendGptRequest_try userPrompt systemPrompt temperature baseEventData
    imagePrompt model s = (Throw error, t, s') ->
  sendGptRequest userPrompt systemPrompt temperature baseEventData retries
    delay imagePrompt model s =
    if (retries =? 0) || status_is_not_429 error then
      (Throw error,
       opening userPrompt systemPrompt ++ t ++ [console_error error], s')
    else
      let again :=
        sendGptRequest userPrompt systemPrompt temperature baseEventData
          (retries - 1) (delay * 2) default_imagePrompt default_model s' in
      (settled_of again,
       opening userPrompt systemPrompt ++ t ++
         [console_log (Log_Received429 retries delay); setTimeout delay] ++
         trace_of again,
       rest_of again).
Proof. intros Htry. rewrite sendGptRequest_unfold, Htry. reflexivity. Qed.

Lemma requests_of_app (t1 t2 : list Effect) :
  requests_of (t1 ++ t2) = requests_of t1 ++ requests_of t2.
Proof.
  induction t1 as [| [l | e | r | ev | d] t1 IH]; cbn; rewrite ?IH;
    reflexivity.
Qed.

Lemma timeouts_of_app (t1 t2 : list Effect) :
  timeouts_of (t1 ++ t2) = timeouts_of t1 ++ timeouts_of t2.
Proof.
  induction t1 as [| [l | e | r | ev | d] t1 IH]; cbn; rewrite ?IH;
    reflexivity.
Qed.

Lemma retry_lines_of_app (t1 t2 : list Effect) :
  retry_lines_of (t1 ++ t2) = retry_lines_of t1 ++ retry_lines_of t2.
Proof.
  induction t1 as [| [[] | e | r | ev | d] t1 IH]; cbn; rewrite ?IH;
    reflexivity.
Qed.

Lemma network_and_timers_app (t1 t2 : list Effect) :
  network_and_timers (t1 ++ t2) =
  network_and_timers t1 ++ network_and_timers t2.
Proof.
  induction t1 as [| [l | e | r | ev | d] t1 IH]; cbn; rewrite ?IH;
    reflexivity.
Qed.

(** Every call of [sendGptRequest] sends a request with the computed
    budget right after printing its prompts, whatever follows. *)
Lemma sendGptRequest_first_request
    userPrompt systemPrompt temperature baseEventData retries delay
    imagePrompt model (s : Script) :
  let request :=
    dispatched userPrompt systemPrompt temperature imagePrompt model in
  exists later,
    trace_of (sendGptRequest userPrompt systemPrompt temperature
                baseEventData retries delay imagePrompt model s) =
    opening userPrompt systemPrompt ++
    budget_log (String.append userPrompt systemPrompt) model ++
    [console_log (Log_Calling model (max_tokens request));
     chat_completions_create request] ++ later.
Proof.
  intros request.
  pose proof (sendGptRequest_try_run userPrompt systemPrompt temperature
                baseEventData imagePrompt model s) as Htry.
  cbv zeta in Htry. fold request in Htry.
  set (sent := budget_log _ _ ++ _) in Htry.
  assert (Hshape :
    exists r later s',
      sendGptRequest_try userPrompt systemPrompt temperature baseEventData
        imagePrompt model s = (r, sent ++ later, s')).
  { rewrite Htry.
    destruct s as [| [response | e] s'].
    - exists Pending, [], []. rewrite app_nil_r. reflexivity.
    - destruct baseEventData as [b |];
        [destruct (events_insert _) |]; eauto.
    - exists (Throw e), [], s'. rewrite app_nil_r. reflexivity. }
  destruct Hshape as (r & later & s' & Hrun).
  subst sent.
  destruct r as [v | error |].
  - rewrite (sendGptRequest_returns _ _ _ _ retries delay _ _ _ _ _ _ Hrun).
    exists later. cbn [trace_of fst snd].
    rewrite <- !app_assoc. reflexivity.
  - rewrite (sendGptRequest_catches _ _ _ _ retries delay _ _ _ _ _ _ Hrun).
    destruct ((retries =? 0) || status_is_not_429 error);
      cbn [trace_of fst snd]; eexists;
      rewrite <- !app_assoc; cbn [app]; reflexivity.
  - rewrite (sendGptRequest_pending _ _ _ _ retries delay _ _ _ _ _ Hrun).
    exists later. cbn [trace_of fst snd].
    rewrite <- !app_assoc. reflexivity.
Qed.

Lemma sendGptRequest_requests
    userPrompt systemPrompt temperature baseEventData retries delay
    imagePrompt model (s : Script) :
  exists later,
    requests_of
      (trace_of (sendGptRequest userPrompt systemPrompt temperature
                   baseEventData retries delay imagePrompt model s)) =
    dispatched userPrompt systemPrompt temperature imagePrompt model ::
    later.
Proof.
  destruct (sendGptRequest_first_request userPrompt systemPrompt
              temperature baseEventData retries delay imagePrompt model s)
    as [later Htrace].
  rewrite Htrace. rewrite !requests_of_app.
  destruct (budget_log_silent (String.append userPrompt systemPrompt) model)
    as (_ & Hreq & _).
  rewrite Hreq. cbn. eauto.
Qed.

(** C2.  When the token estimate plus the padding meets or exceeds the
    context window, the [try] block of the calculator throws the
    input-too-large error, the calculator settles with
    [round (contextWindow / 2)], and that is the [max_tokens] of the
    request the dispatcher sends. *)
Theorem input_too_large_falls_back
    (inputText : string) (model : Model) (toks : list Z) (s : Script) :
  encode inputText = Ok toks ->
  CONTEXT_WINDOW model - Z.of_nat (List.length toks)
    - (- ((- CONTEXT_WINDOW model) / 100)) <= 0 ->
  let too_large :=
    Js.new_Error
      "Input text is too large to fit within the context window." in
  getMaxTokensForResponse_try inputText model s = (Throw too_large, [], s)
  /\ getMaxTokensForResponse inputText model s =
       (Return ((CONTEXT_WINDOW model + 1) / 2),
        [console_log (Log_BudgetError too_large)], s)
  /\ forall userPrompt systemPrompt temperature baseEventData retries delay
            imagePrompt,
       String.append userPrompt systemPrompt = inputText ->
       exists later,
         requests_of
           (trace_of (sendGptRequest userPrompt systemPrompt temperature
                        baseEventData retries delay imagePrompt model s)) =
         {| model := model;
            messages := build_messages userPrompt systemPrompt imagePrompt;
            max_tokens := (CONTEXT_WINDOW model + 1) / 2;
            temperature := temperature |} :: later.
Proof.
  intros Henc Hover too_large.
  assert (Htry :
    getMaxTokensForResponse_try inputText model s = (Throw too_large, [], s)).
  { unfold getMaxTokensForResponse_try, bind, lift.
    rewrite Henc; cbn. rewrite context_padding_exact.
    destruct (Z.leb_spec
                (CONTEXT_WINDOW model - Z.of_nat (List.length toks)
                 - (- ((- CONTEXT_WINDOW model) / 100))) 0);
      [reflexivity | lia]. }
  assert (Hrun : forall s',
    getMaxTokensForResponse inputText model s' =
      (Return ((CONTEXT_WINDOW model + 1) / 2),
       [console_log (Log_BudgetError too_large)], s')).
  { intros s'.
    unfold getMaxTokensForResponse, try_catch.
    unfold getMaxTokensForResponse_try, bind at 1, lift.
    rewrite Henc; cbn. rewrite context_padding_exact.
    destruct (Z.leb_spec
                (CONTEXT_WINDOW model - Z.of_nat (List.length toks)
                 - (- ((- CONTEXT_WINDOW model) / 100))) 0);
      [| lia].
    cbn. destruct (half_context_exact model) as [-> _]. reflexivity. }
  split; [exact Htry |]. split; [apply Hrun |].
  intros userPrompt systemPrompt temperature baseEventData retries delay
    imagePrompt Htext.
  destruct (sendGptRequest_requests userPrompt systemPrompt temperature
              baseEventData retries delay imagePrompt model s)
    as [later Hreq].
  exists later. rewrite Hreq. f_equal.
  unfold dispatched. f_equal.
  unfold budget, settled_of. rewrite Htext, Hrun. reflexivity.
Qed.

End Dispatcher.

(** C2 on 8200 characters and gpt-4-0613: 8192 - 8200 - 82 is negative,
    the calculator falls back to 4096 and the request carries it. *)
Lemma input_too_large_falls_back_witness :
  getMaxTokensForResponse (env := sample_env) long_prompt gpt_4_0613
    [Ok (answer "ok")] =
    (Return 4096,
     [console_log
        (Log_BudgetError
           (Js.new_Error
              "Input text is too large to fit within the context window."))],
     [Ok (answer "ok")])
  /\ exists later,
       requests_of
         (trace_of (sendGptRequest (env := sample_env) long_prompt ""
                      default_temperature None default_retries default_delay
                      None gpt_4_0613 [Ok (answer "ok")])) =
       {| model := gpt_4_0613;
          messages := build_messages long_prompt "" None;
          max_tokens := 4096;
          temperature := default_temperature |} :: later.
Proof.
  assert (Henc : encode (Env := sample_env) long_prompt =
                 Ok (map (fun c => Z.of_nat (nat_of_ascii c))
                         (list_ascii_of_string long_prompt)))
    by reflexivity.
  assert (Hover :
    CONTEXT_WINDOW gpt_4_0613
      - Z.of_nat (List.length
                    (map (fun c => Z.of_nat (nat_of_ascii c))
                         (list_ascii_of_string long_prompt)))
      - (- ((- CONTEXT_WINDOW gpt_4_0613) / 100)) <= 0)
    by (vm_compute; discriminate).
  destruct (input_too_large_falls_back (env := sample_env) long_prompt
              gpt_4_0613 _ [Ok (answer "ok")] Henc Hover)
    as (_ & Hrun & Hsent).
  split; [exact Hrun |].
  apply (Hsent long_prompt "" default_temperature None default_retries
           default_delay None).
  vm_compute; reflexivity.
Defined.

(** ** Every request of a call *)

Section Requests.
Context {env : Env}.

(** The [try] block sends exactly its request and sets no timer. *)
Lemma sendGptRequest_try_trace
    userPrompt systemPrompt temperature baseEventData imagePrompt model
    (s : Script) :
  let t := trace_of (sendGptRequest_try userPrompt systemPrompt temperature
                       baseEventData imagePrompt model s) in
  requests_of t =
    [dispatched userPrompt systemPrompt temperature imagePrompt model]
  /\ timeouts_of t = [] /\ retry_lines_of t = []
  /\ network_and_timers t =
       [chat_completions_create
          (dispatched userPrompt systemPrompt temperature imagePrompt
             model)].
Proof.
  cbv zeta. rewrite sendGptRequest_try_run. cbv zeta.
  destruct (budget_log_silent (String.append userPrompt systemPrompt) model)
    as (Hnet & Hreq & Htim & Hlin).
  destruct s as [| [response | e] s'];
    [| destruct baseEventData as [b |];
       [destruct (events_insert _) |] |];
    cbn [trace_of fst snd];
    rewrite ?requests_of_app, ?timeouts_of_app, ?retry_lines_of_app,
      ?network_and_timers_app, Hnet, Hreq, Htim, Hlin;
    cbn; repeat split; reflexivity.
Qed.

(** One step of a call: the [try] block runs on the script, and the
    call either ends with it or waits and calls again on the rest. *)
Lemma sendGptRequest_step
    userPrompt systemPrompt temperature baseEventData retries delay
    imagePrompt model (s : Script) :
  let run := sendGptRequest userPrompt systemPrompt temperature
               baseEventData retries delay imagePrompt model s in
  let attempt := sendGptRequest_try userPrompt systemPrompt temperature
                   baseEventData imagePrompt model s in
  (exists tail,
      run = (settled_of attempt,
             opening userPrompt systemPrompt ++ trace_of attempt ++ tail,
             rest_of attempt)
      /\ requests_of tail = [] /\ timeouts_of tail = []
      /\ retry_lines_of tail = [])
  \/
  (exists error a,
      settled_of attempt = Throw error
      /\ s = a :: rest_of attempt
      /\ retries <> 0 /\ Js.response_status error = Some 429
      /\ let again :=
           sendGptRequest userPrompt systemPrompt temperature
             baseEventData (retries - 1) (delay * 2) default_imagePrompt
             default_model (rest_of attempt) in
         run = (settled_of again,
                opening userPrompt systemPrompt ++ trace_of attempt ++
                  [console_log (Log_Received429 retries delay);
                   setTimeout delay] ++ trace_of again,
                rest_of again)).
Proof.
  intros run attempt. subst run.
  pose proof (sendGptRequest_try_consumes userPrompt systemPrompt
                temperature baseEventData imagePrompt model s) as Hlen.
  cbv zeta in Hlen. fold attempt in Hlen.
  destruct attempt as [[r t] s'] eqn:Hrun.
  cbn [settled_of trace_of rest_of fst snd] in *.
  destruct r as [v | error |].
  - left. exists [].
    rewrite (sendGptRequest_returns _ _ _ _ retries delay _ _ _ _ _ _ Hrun).
    rewrite app_nil_r. auto.
  - rewrite (sendGptRequest_catches _ _ _ _ retries delay _ _ _ _ _ _ Hrun).
    destruct ((retries =? 0) || status_is_not_429 error) eqn:Hstop.
    + left. exists [console_error error]. auto.
    + right. apply orb_false_iff in Hstop. destruct Hstop as [Hr Hs].
      destruct Hlen as [a Ha].
      exists error, a. repeat split; try assumption.
      * apply Z.eqb_neq; assumption.
      * unfold status_is_not_429 in Hs.
        destruct (Js.response_status error) as [status |];
          [| discriminate].
        apply negb_false_iff, Z.eqb_eq in Hs. congruence.
  - left. exists [].
    rewrite (sendGptRequest_pending _ _ _ _ retries delay _ _ _ _ _ Hrun).
    rewrite app_nil_r. auto.
Qed.

End Requests.

(** Splits the call in the goal by [sendGptRequest_step]: in the first
    case it ended with its [try] block ([Htail]: nothing is requested
    after it), in the second it called again on the rest of the script
    ([Hs]).  [Hreq] is the one request of the [try] block. *)
Ltac step_call Hreq Htail Hs :=
  match goal with
  | |- context [sendGptRequest ?u ?sp ?temp ?b ?r ?d ?img ?m ?script] =>
      let Hstep := fresh "Hstep" in
      let tail := fresh "tail" in
      pose proof (sendGptRequest_step u sp temp b r d img m script) as Hstep;
      pose proof (sendGptRequest_try_trace u sp temp b img m script)
        as (Hreq & _);
      cbv zeta in Hstep;
      destruct Hstep as [(tail & -> & Htail & _)
                        | (? & ? & _ & Hs & _ & _ & ->)];
      cbn [trace_of fst snd];
      rewrite ?requests_of_app, ?Hreq
  end.

Section Invariant.
Context {env : Env}.

(** Every request a call sends, first attempt or retry, carries the
    budget computed for its own model. *)
Lemma sendGptRequest_every_request
    userPrompt systemPrompt temperature baseEventData (s : Script) :
  forall retries delay imagePrompt model,
    Forall (carries_budget (String.append userPrompt systemPrompt))
      (requests_of
         (trace_of (sendGptRequest userPrompt systemPrompt temperature
                      baseEventData retries delay imagePrompt model s))).
Proof.
  induction s as [| a0 s IH]; intros retries delay imagePrompt model.
  all: step_call Hreq Htail Hs.
  - rewrite Htail. cbn. constructor; [reflexivity | constructor].
  - discriminate Hs.
  - rewrite Htail. cbn. constructor; [reflexivity | constructor].
  - injection Hs as _ <-. cbn.
    constructor; [reflexivity | apply IH].
Qed.

Lemma budget_value (inputText : string) (model : Model) (toks : list Z) :
  encode inputText = Ok toks ->
  let window := CONTEXT_WINDOW model in
  let remaining :=
    window - Z.of_nat (List.length toks) - (- ((- window) / 100)) in
  budget inputText model =
    if remaining <=? 0 then (window + 1) / 2
    else Z.min remaining (MAX_OUTPUT model).
Proof.
  intros Henc window remaining.
  unfold budget, settled_of, getMaxTokensForResponse, try_catch.
  unfold getMaxTokensForResponse_try, bind at 1, lift.
  rewrite Henc; cbn. rewrite context_padding_exact.
  fold window remaining.
  destruct (remaining <=? 0); cbn; [| reflexivity].
  apply half_context_exact.
Qed.

(** C3, as the code has it.  A call with input that does not fit is not
    refused: every call sends its request.  Each request of the call,
    first attempt or retry, keeps [max_tokens + inputTokens + padding]
    within the window of its model whenever the input and the padding
    fit there, and carries half the window otherwise. *)
Theorem budget_invariant_when_input_fits
    userPrompt systemPrompt temperature baseEventData retries delay
    imagePrompt model (s : Script) (toks : list Z) :
  encode (String.append userPrompt systemPrompt) = Ok toks ->
  let run := sendGptRequest userPrompt systemPrompt temperature
               baseEventData retries delay imagePrompt model s in
  (exists later,
      requests_of (trace_of run) =
      dispatched userPrompt systemPrompt temperature imagePrompt model ::
      later)
  /\ Forall (within_window (Z.of_nat (List.length toks)))
       (requests_of (trace_of run)).
Proof.
  intros Henc run. split; [apply sendGptRequest_requests |].
  subst run.
  eapply Forall_impl; [| apply sendGptRequest_every_request].
  intros request Hcarries. unfold carries_budget in Hcarries.
  unfold within_window. cbv zeta.
  rewrite Hcarries, (budget_value _ _ _ Henc). cbv zeta.
  set (window := CONTEXT_WINDOW _).
  set (remaining := window - _ - _).
  match goal with
  | |- context [MAX_OUTPUT ?m] =>
      assert (0 < MAX_OUTPUT m) by (destruct m; reflexivity)
  end.
  destruct (Z.leb_spec remaining 0); subst remaining; split; intros; lia.
Qed.

End Invariant.

(** C3 as stated fails: on 8200 characters and gpt-4-0613 the call is not
    refused.  The request goes out and is answered, with a ceiling of 4096
    on top of 8200 input tokens and 82 of padding in a window of 8192. *)
Lemma over_budget_request_goes_out :
  encode (Env := sample_env) (String.append long_prompt "") =
    Ok (repeat 97 (Z.to_nat 8200))
  /\ settled_of over_budget_run = Return (Some "ok")
  /\ requests_of (trace_of over_budget_run) =
       [ {| model := gpt_4_0613;
            messages := build_messages long_prompt "" None;
            max_tokens := 4096;
            temperature := default_temperature |} ]
  /\ ~ (4096 + 8200 + context_padding (CONTEXT_WINDOW gpt_4_0613)
        <= CONTEXT_WINDOW gpt_4_0613).
Proof.
  split; [vm_compute; reflexivity |].
  split; [vm_compute; reflexivity |].
  split; [vm_compute; reflexivity |].
  vm_compute. intros H; apply H; reflexivity.
Qed.

(** C3 (amended) on a short prompt and gpt-4-0613 with one rate-limit
    error: both requests keep the sum within their windows. *)
Lemma budget_invariant_when_input_fits_witness :
  (exists later,
      requests_of
        (trace_of (sendGptRequest (env := sample_env) "Hello" ", world"
                     default_temperature None default_retries default_delay
                     None gpt_4_0613 [Err rate_limited; Ok (answer "ok")])) =
      dispatched (env := sample_env) "Hello" ", world" default_temperature
        None gpt_4_0613 :: later)
  /\ Forall (within_window 12)
       (requests_of
          (trace_of (sendGptRequest (env := sample_env) "Hello" ", world"
                       default_temperature None default_retries
                       default_delay None gpt_4_0613
                       [Err rate_limited; Ok (answer "ok")]))).
Proof.
  exact (budget_invariant_when_input_fits (env := sample_env)
           "Hello" ", world" default_temperature None default_retries
           default_delay None gpt_4_0613
           [Err rate_limited; Ok (answer "ok")]
           (map (fun c => Z.of_nat (nat_of_ascii c))
                (list_ascii_of_string "Hello, world"))
           eq_refl).
Defined.

(** ** A call by the provider's next answer *)

Section Answers.
Context {env : Env}.

(** A call whose request fails with an error carrying
    [response.status = 429] while retries remain continues as the call
    with one retry less and twice the delay, on the default model and
    without an image block. *)
Lemma sendGptRequest_rate_limited
    userPrompt systemPrompt temperature baseEventData retries delay
    imagePrompt model (error : Js.Error) (rest : Script) :
  Js.response_status error = Some 429 ->
  retries <> 0 ->
  let request :=
    dispatched userPrompt systemPrompt temperature imagePrompt model in
  let again :=
    sendGptRequest userPrompt systemPrompt temperature baseEventData
      (retries - 1) (delay * 2) default_imagePrompt default_model rest in
  sendGptRequest userPrompt systemPrompt temperature baseEventData retries
    delay imagePrompt model (Err error :: rest) =
  (settled_of again,
   opening userPrompt systemPrompt ++
     (budget_log (String.append userPrompt systemPrompt) model ++
      [console_log (Log_Calling model (max_tokens request));
       chat_completions_create request]) ++
     [console_log (Log_Received429 retries delay); setTimeout delay] ++
     trace_of again,
   rest_of again).
Proof.
  intros Hstatus Hretries request again.
  rewrite sendGptRequest_unfold, sendGptRequest_try_run. cbv zeta.
  assert ((retries =? 0) || status_is_not_429 error = false) as ->.
  { apply orb_false_iff; split; [apply Z.eqb_neq; assumption |].
    unfold status_is_not_429. rewrite Hstatus. reflexivity. }
  reflexivity.
Qed.

(** A call the provider answers, with its usage event (if one is
    written) accepted, returns the content of the first choice after one
    request and no timer. *)
Lemma sendGptRequest_answered
    userPrompt systemPrompt temperature baseEventData retries delay
    imagePrompt model (response : Response) (rest : Script) :
  (forall b, baseEventData = Some b ->
             events_insert
               (usage_event b model
                  (build_messages userPrompt systemPrompt imagePrompt)
                  response) = None) ->
  let request :=
    dispatched userPrompt systemPrompt temperature imagePrompt model in
  exists t,
    sendGptRequest userPrompt systemPrompt temperature baseEventData retries
      delay imagePrompt model (Ok response :: rest) =
      (Return (first_content response), t, rest)
    /\ network_and_timers t = [chat_completions_create request]
    /\ requests_of t = [request]
    /\ timeouts_of t = [] /\ retry_lines_of t = [].
Proof.
  intros Hstore request.
  pose proof (sendGptRequest_try_trace userPrompt systemPrompt temperature
                baseEventData imagePrompt model (Ok response :: rest))
    as (Hreq & Htim & Hlin & Hnet).
  rewrite sendGptRequest_unfold.
  revert Hreq Htim Hlin Hnet.
  rewrite sendGptRequest_try_run. cbv zeta.
  destruct baseEventData as [b |]; [rewrite (Hstore b eq_refl) |];
    cbn [trace_of fst snd]; intros Hreq Htim Hlin Hnet;
    eexists; (split; [reflexivity |]);
    rewrite network_and_timers_app, requests_of_app, timeouts_of_app,
      retry_lines_of_app, Hreq, Htim, Hlin, Hnet;
    repeat split; reflexivity.
Qed.

End Answers.

(** ** Rate limits and other errors *)

Section Retry.
Context {env : Env}.

(** The retry branch, when it is taken.  With [retries = 10] and
    [delay = 60000], when the first two requests fail with errors that
    carry [response.status = 429] and the third is answered (its usage
    event, if one is written, being accepted), the call sends three
    requests, waits 60000 ms before the second and 120000 ms before the
    third, prints 10 and then 9 remaining retries with those delays, and
    returns the content of the third answer.  The errors of the
    provider's client do not have this shape; the last section of the
    file treats them. *)
Theorem two_rate_limits_then_success
    userPrompt systemPrompt temperature baseEventData imagePrompt model
    (e1 e2 : Js.Error) (response : Response) (rest : Script) :
  Js.response_status e1 = Some 429 ->
  Js.response_status e2 = Some 429 ->
  (forall b, baseEventData = Some b ->
             events_insert
               (usage_event b default_model
                  (build_messages userPrompt systemPrompt None) response)
             = None) ->
  let run := sendGptRequest userPrompt systemPrompt temperature
               baseEventData 10 60000 imagePrompt model
               (Err e1 :: Err e2 :: Ok response :: rest) in
  settled_of run = Return (first_content response)
  /\ rest_of run = rest
  /\ network_and_timers (trace_of run) =
       [chat_completions_create
          (dispatched userPrompt systemPrompt temperature imagePrompt
             model);
        setTimeout 60000;
        chat_completions_create
          (dispatched userPrompt systemPrompt temperature None
             default_model);
        setTimeout 120000;
        chat_completions_create
          (dispatched userPrompt systemPrompt temperature None
             default_model)]
  /\ retry_lines_of (trace_of run) = [(10, 60000); (9, 120000)].
Proof.
  intros H1 H2 Hstore run. subst run.
  rewrite sendGptRequest_rate_limited by (assumption || lia). cbv zeta.
  rewrite sendGptRequest_rate_limited by (assumption || lia). cbv zeta.
  destruct (sendGptRequest_answered userPrompt systemPrompt temperature
              baseEventData (10 - 1 - 1) (60000 * 2 * 2) default_imagePrompt
              default_model response rest Hstore)
    as (t3 & -> & N3 & _ & _ & L3).
  cbn [settled_of trace_of rest_of fst snd].
  destruct (budget_log_silent (String.append userPrompt systemPrompt) model)
    as (Bn & _ & _ & Bl).
  destruct (budget_log_silent (String.append userPrompt systemPrompt)
              default_model) as (Bn' & _ & _ & Bl').
  repeat split.
  - rewrite !network_and_timers_app, Bn, Bn', N3. reflexivity.
  - rewrite !retry_lines_of_app, Bl, Bl', L3. reflexivity.
Qed.

End Retry.

(** The retry branch on the sample call whose errors carry
    [response.status]: two waits, 60000 ms then 120000 ms, three requests,
    and the third answer returned. *)
Lemma two_rate_limits_then_success_witness :
  settled_of backoff_run = Return (Some "ok")
  /\ rest_of backoff_run = []
  /\ network_and_timers (trace_of backoff_run) =
       [chat_completions_create
          (dispatched (env := sample_env) "Hi" default_systemPrompt
             default_temperature None default_model);
        setTimeout 60000;
        chat_completions_create
          (dispatched (env := sample_env) "Hi" default_systemPrompt
             default_temperature None default_model);
        setTimeout 120000;
        chat_completions_create
          (dispatched (env := sample_env) "Hi" default_systemPrompt
             default_temperature None default_model)]
  /\ retry_lines_of (trace_of backoff_run) = [(10, 60000); (9, 120000)].
Proof.
  exact (two_rate_limits_then_success (env := sample_env) "Hi"
           default_systemPrompt default_temperature (Some tt) None
           default_model rate_limited rate_limited (answer "ok") []
           eq_refl eq_refl (fun _ _ => eq_refl)).
Defined.

Section Propagation.
Context {env : Env}.

(** C5.  When an attempt throws an error that is not a 429, or throws
    any error while the retry counter is zero, the call throws that same
    error: one request was sent, no timer is set and no retry is
    announced. *)
Theorem other_errors_propagate
    userPrompt systemPrompt temperature baseEventData retries delay
    imagePrompt model (s : Script) (error : Js.Error) :
  settled_of (sendGptRequest_try userPrompt systemPrompt temperature
                baseEventData imagePrompt model s) = Throw error ->
  Js.response_status error <> Some 429 \/ retries = 0 ->
  let attempt := sendGptRequest_try userPrompt systemPrompt temperature
                   baseEventData imagePrompt model s in
  let run := sendGptRequest userPrompt systemPrompt temperature
               baseEventData retries delay imagePrompt model s in
  run = (Throw error,
         opening userPrompt systemPrompt ++ trace_of attempt ++
           [console_error error],
         rest_of attempt)
  /\ requests_of (trace_of run) =
       [dispatched userPrompt systemPrompt temperature imagePrompt model]
  /\ timeouts_of (trace_of run) = []
  /\ retry_lines_of (trace_of run) = [].
Proof.
  intros Hthrow Hstop attempt run.
  pose proof (sendGptRequest_try_trace userPrompt systemPrompt temperature
                baseEventData imagePrompt model s) as (Hreq & Htim & Hlin & _).
  fold attempt in Hthrow, Hreq, Htim, Hlin.
  destruct attempt as [[r t] s'] eqn:Hrun.
  cbn [settled_of trace_of rest_of fst snd] in *. subst r.
  assert (Hrun' : run = (Throw error,
                         opening userPrompt systemPrompt ++ t ++
                           [console_error error], s')).
  { subst run.
    rewrite (sendGptRequest_catches _ _ _ _ retries delay _ _ _ _ _ _ Hrun).
    assert ((retries =? 0) || status_is_not_429 error = true) as ->;
      [| reflexivity].
    destruct Hstop as [Hstatus | ->]; [| reflexivity].
    apply orb_true_iff; right. unfold status_is_not_429.
    destruct (Js.response_status error) as [status |]; [| reflexivity].
    apply negb_true_iff, Z.eqb_neq. congruence. }
  rewrite Hrun'. cbn [trace_of fst snd].
  rewrite !requests_of_app, !timeouts_of_app, !retry_lines_of_app.
  rewrite Hreq, Htim, Hlin. repeat split; reflexivity.
Qed.

(** The retry branch, when it is taken.  When an attempt throws an error
    that carries [response.status = 429] while retries remain, the call
    waits and sends a second request that carries the default model
    gpt-4-turbo-preview and only the system and user messages; if the
    call had an image block or another model, the second request differs
    from the first.  The errors of the provider's client do not have
    this shape; the last section of the file treats them. *)
Theorem retry_drops_image_and_model
    userPrompt systemPrompt temperature baseEventData retries delay
    imagePrompt model (s : Script) (error : Js.Error) :
  settled_of (sendGptRequest_try userPrompt systemPrompt temperature
                baseEventData imagePrompt model s) = Throw error ->
  Js.response_status error = Some 429 ->
  retries <> 0 ->
  let run := sendGptRequest userPrompt systemPrompt temperature
               baseEventData retries delay imagePrompt model s in
  let first :=
    dispatched userPrompt systemPrompt temperature imagePrompt model in
  let second :=
    {| model := gpt_4_turbo_preview;
       messages := [ {| role := "system"; content := Plain systemPrompt |};
                     {| role := "user"; content := Plain userPrompt |} ];
       max_tokens :=
         budget (String.append userPrompt systemPrompt)
           gpt_4_turbo_preview;
       temperature := temperature |} in
  (exists later, requests_of (trace_of run) = first :: second :: later)
  /\ timeouts_of (trace_of run) <> []
  /\ (imagePrompt <> None \/ model <> gpt_4_turbo_preview ->
      second <> first).
Proof.
  intros Hthrow Hstatus Hretries run first second.
  pose proof (sendGptRequest_try_trace userPrompt systemPrompt temperature
                baseEventData imagePrompt model s) as (Hreq & Htim & _).
  destruct (sendGptRequest_try userPrompt systemPrompt temperature
              baseEventData imagePrompt model s) as [[r t] s'] eqn:Hrun.
  cbn [settled_of trace_of rest_of fst snd] in *. subst r.
  assert (Hgo : (retries =? 0) || status_is_not_429 error = false).
  { apply orb_false_iff; split; [apply Z.eqb_neq; assumption |].
    unfold status_is_not_429. rewrite Hstatus. reflexivity. }
  subst run.
  rewrite (sendGptRequest_catches _ _ _ _ retries delay _ _ _ _ _ _ Hrun).
  rewrite Hgo. cbv zeta. cbn [trace_of fst snd].
  destruct (sendGptRequest_requests userPrompt systemPrompt temperature
              baseEventData (retries - 1) (delay * 2) default_imagePrompt
              default_model s') as [later Hagain].
  split; [| split].
  - exists later.
    rewrite !requests_of_app, Hreq, Hagain. reflexivity.
  - rewrite !timeouts_of_app, Htim. cbn. discriminate.
  - intros Hdiff Heq. subst first second. unfold dispatched in Heq.
    injection Heq as Hmodel Hmessages _.
    destruct Hdiff as [Himage | Hmodel']; [| congruence].
    destruct imagePrompt as [image |]; [| congruence].
    cbn in Hmessages. discriminate Hmessages.
Qed.

End Propagation.

(** C5 on a server error (status 500) with ten retries left: thrown at
    once, the later answer is never asked for. *)
Lemma other_errors_propagate_witness :
  settled_of failing_run = Throw server_error
  /\ rest_of failing_run = [Ok (answer "late")]
  /\ requests_of (trace_of failing_run) =
       [dispatched (env := sample_env) "Hi" default_systemPrompt
          default_temperature None default_model]
  /\ timeouts_of (trace_of failing_run) = []
  /\ retry_lines_of (trace_of failing_run) = [].
Proof.
  assert (Hstatus : Js.response_status server_error <> Some 429)
    by (cbn; discriminate).
  destruct (other_errors_propagate (env := sample_env) "Hi"
              default_systemPrompt default_temperature None 10 60000 None
              default_model [Err server_error; Ok (answer "late")]
              server_error eq_refl (or_introl Hstatus))
    as (Hrun & Hreq & Htim & Hlin).
  change (sendGptRequest _ _ _ _ _ _ _ _ _) with failing_run
    in Hrun, Hreq, Htim, Hlin.
  rewrite Hrun at 1 2. repeat split; assumption.
Defined.

(** The retry branch on the vision-style call whose error carries
    [response.status]: the second request has lost the image block and
    the vision model. *)
Lemma retry_drops_image_and_model_witness :
  (exists later,
      requests_of (trace_of limited_vision_run) =
      {| model := gpt_4_vision_preview;
         messages :=
           [ snapshot_block;
             {| role := "system"; content := Plain default_systemPrompt |};
             {| role := "user"; content := Plain "Hi" |} ];
         max_tokens := 4096;
         temperature := default_temperature |}
      :: {| model := gpt_4_turbo_preview;
            messages :=
              [ {| role := "system"; content := Plain default_systemPrompt |};
                {| role := "user"; content := Plain "Hi" |} ];
            max_tokens := 4096;
            temperature := default_temperature |}
      :: later)
  /\ timeouts_of (trace_of limited_vision_run) <> [].
Proof.
  destruct (retry_drops_image_and_model (env := sample_env) "Hi"
              default_systemPrompt default_temperature None 10 60000
              (Some snapshot_block) gpt_4_vision_preview
              [Err rate_limited; Ok (answer "ok")] rate_limited
              eq_refl eq_refl ltac:(cbn; discriminate))
    as (Hreq & Htim & _).
  split; [exact Hreq | exact Htim].
Defined.

(** ** Running out of retries, and running out of answers *)

Section Exhaustion.
Context {env : Env}.

(** With [n] retries and [n + 1] errors carrying [response.status = 429]
    in a row, the call sends [n + 1] requests, waits [n] times with
    doubling delays, and throws the last error: once the counter is at
    zero, such an error is propagated like any other. *)
Lemma rate_limits_exhaust_retries
    userPrompt systemPrompt temperature baseEventData
    (errors : list Js.Error) :
  forall delay imagePrompt model (last : Js.Error) (rest : Script),
    Forall (fun error => Js.response_status error = Some 429) errors ->
    let run :=
      sendGptRequest userPrompt systemPrompt temperature baseEventData
        (Z.of_nat (List.length errors)) delay imagePrompt model
        (map Err errors ++ Err last :: rest) in
    settled_of run = Throw last
    /\ rest_of run = rest
    /\ timeouts_of (trace_of run) = delays_from delay (List.length errors)
    /\ List.length (requests_of (trace_of run)) = S (List.length errors).
Proof.
  induction errors as [| error errors IH];
    intros delay imagePrompt model last rest Hall run; subst run.
  - cbn [map app List.length Z.of_nat delays_from].
    rewrite sendGptRequest_unfold, sendGptRequest_try_run. cbv zeta.
    cbn [Z.eqb orb settled_of rest_of trace_of fst snd].
    destruct (budget_log_silent (String.append userPrompt systemPrompt)
                model) as (_ & Hreq & Htim & _).
    rewrite !timeouts_of_app, !requests_of_app, Hreq, Htim.
    repeat split; reflexivity.
  - inversion Hall as [| ? ? Hstatus Hrest]; subst.
    cbn [map app].
    rewrite sendGptRequest_rate_limited
      by (assumption || (cbn [List.length]; lia)).
    cbv zeta.
    replace (Z.of_nat (List.length (error :: errors)) - 1)
      with (Z.of_nat (List.length errors)) by (cbn [List.length]; lia).
    destruct (IH (delay * 2) default_imagePrompt default_model last rest
                Hrest) as (Hsettled & Hrest' & Htimers & Hcount).
    cbn [settled_of rest_of trace_of fst snd] in *.
    destruct (budget_log_silent (String.append userPrompt systemPrompt)
                model) as (_ & Hreq & Htim & _).
    rewrite !timeouts_of_app, !requests_of_app, Hreq, Htim.
    cbn [List.length delays_from timeouts_of requests_of opening app].
    rewrite Htimers, Hcount. repeat split; assumption.
Qed.

(** A call stays pending only when the provider has no answer left for
    its last request. *)
Lemma sendGptRequest_pending_when_unanswered
    userPrompt systemPrompt temperature baseEventData (s : Script) :
  forall retries delay imagePrompt model,
    settled_of (sendGptRequest userPrompt systemPrompt temperature
                  baseEventData retries delay imagePrompt model s) = Pending ->
    rest_of (sendGptRequest userPrompt systemPrompt temperature
               baseEventData retries delay imagePrompt model s) = [].
Proof.
  induction s as [| a0 s IH]; intros retries delay imagePrompt model.
  all: rewrite sendGptRequest_unfold, sendGptRequest_try_run; cbv zeta.
  - intros _. reflexivity.
  - destruct a0 as [response | error].
    + destruct baseEventData as [b |];
        [destruct (events_insert _) as [error |] |];
        try discriminate.
      destruct ((retries =? 0) || status_is_not_429 error);
        [discriminate | apply IH].
    + destruct ((retries =? 0) || status_is_not_429 error);
        [discriminate | apply IH].
Qed.

End Exhaustion.

(** ** The vision adapter *)

Section Vision.
Context {env : Env}.

(** After its first request, every further request of a call is the
    plain text request: default model, system and user message only. *)
Lemma sendGptRequest_later_requests
    userPrompt systemPrompt temperature baseEventData (s : Script) :
  forall retries delay imagePrompt model,
  exists later,
    requests_of
      (trace_of (sendGptRequest userPrompt systemPrompt temperature
                   baseEventData retries delay imagePrompt model s)) =
    dispatched userPrompt systemPrompt temperature imagePrompt model ::
    later
    /\ Forall (eq (dispatched userPrompt systemPrompt temperature None
                     default_model)) later.
Proof.
  induction s as [| a0 s IH]; intros retries delay imagePrompt model.
  all: step_call Hreq Htail Hs.
  - rewrite Htail. exists []. split; [reflexivity | constructor].
  - discriminate Hs.
  - rewrite Htail. exists []. split; [reflexivity | constructor].
  - injection Hs as _ <-.
    destruct (IH (retries - 1) (delay * 2) default_imagePrompt
                default_model) as (later & -> & Hlater).
    eexists. split; [reflexivity |].
    constructor; [reflexivity | exact Hlater].
Qed.

(** C9.  With a non-empty image URL the first request of the call names
    the vision model and starts with the image message (the URL in high
    detail, then the instruction text), followed by the system and the
    user message.  With no image URL every request of the call names
    the default text model and has exactly the system and the user
    message. *)
Theorem vision_request_shape
    userPrompt systemPrompt snapshotUrl temperature baseEventData
    retries delay (s : Script) :
  let run := sendGptVisionRequest userPrompt systemPrompt snapshotUrl
               temperature baseEventData retries delay s in
  let imageMessage :=
    {| role := "user";
       content := Parts [ image_url snapshotUrl "high";
                          text (parseTemplate "dev" "vision" "user") ] |} in
  let systemMessage :=
    {| role := "system"; content := Plain systemPrompt |} in
  let userMessage := {| role := "user"; content := Plain userPrompt |} in
  (snapshotUrl <> "" ->
   exists later,
     requests_of (trace_of run) =
     {| model := gpt_4_vision_preview;
        messages := [imageMessage; systemMessage; userMessage];
        max_tokens :=
          budget (String.append userPrompt systemPrompt)
            gpt_4_vision_preview;
        temperature := temperature |} :: later)
  /\ (snapshotUrl = "" ->
      exists later,
        requests_of (trace_of run) =
        {| model := gpt_4_turbo_preview;
           messages := [systemMessage; userMessage];
           max_tokens :=
             budget (String.append userPrompt systemPrompt)
               gpt_4_turbo_preview;
           temperature := temperature |} :: later
        /\ Forall (fun request =>
                     model request = gpt_4_turbo_preview /\
                     messages request = [systemMessage; userMessage])
             later).
Proof.
  intros run imageMessage systemMessage userMessage.
  subst run. unfold sendGptVisionRequest.
  split.
  - intros Hurl.
    destruct snapshotUrl as [| c url]; [congruence |].
    cbn [String.length Nat.ltb Nat.leb].
    apply sendGptRequest_requests.
  - intros ->. cbn [String.length Nat.ltb Nat.leb].
    destruct (sendGptRequest_later_requests userPrompt systemPrompt
                temperature baseEventData s retries delay None
                gpt_4_turbo_preview) as (later & Hreq & Hlater).
    exists later. split; [exact Hreq |].
    eapply Forall_impl; [| exact Hlater].
    intros request <-. split; reflexivity.
Qed.

End Vision.

(** C9 on the sample environment, with and without a snapshot URL. *)
Lemma vision_request_shape_witness :
  (exists later,
      requests_of
        (trace_of (sendGptVisionRequest (env := sample_env) "Hi"
                     default_systemPrompt "https://example.com/snapshot.png"
                     default_temperature None default_retries default_delay
                     [Ok (answer "ok")])) =
      {| model := gpt_4_vision_preview;
         messages :=
           [ snapshot_block;
             {| role := "system"; content := Plain default_systemPrompt |};
             {| role := "user"; content := Plain "Hi" |} ];
         max_tokens := 4096;
         temperature := default_temperature |} :: later)
  /\ (exists later,
         requests_of
           (trace_of (sendGptVisionRequest (env := sample_env) "Hi"
                        default_systemPrompt "" default_temperature None
                        default_retries default_delay [Ok (answer "ok")])) =
         {| model := gpt_4_turbo_preview;
            messages :=
              [ {| role := "system"; content := Plain default_systemPrompt |};
                {| role := "user"; content := Plain "Hi" |} ];
            max_tokens := 4096;
            temperature := default_temperature |} :: later).
Proof.
  split.
  - apply (vision_request_shape (env := sample_env) "Hi"
             default_systemPrompt "https://example.com/snapshot.png"
             default_temperature None default_retries default_delay
             [Ok (answer "ok")]).
    discriminate.
  - destruct (vision_request_shape (env := sample_env) "Hi"
                default_systemPrompt "" default_temperature None
                default_retries default_delay [Ok (answer "ok")])
      as (_ & Htext).
    destruct (Htext eq_refl) as (later & Hreq & _).
    exists later. exact Hreq.
Defined.

(** ** The schema-validated extractor *)

Section Extractor.
Context {env : Env}.

(** The call every attempt of the extractor makes. *)
Lemma sendGptRequestWithSchema_try_run
    userPrompt systemPrompt zodSchema temperature baseEventData
    (s : Script) :
  sendGptRequestWithSchema_try userPrompt systemPrompt zodSchema
    temperature baseEventData s =
  match sendGptRequest userPrompt systemPrompt temperature baseEventData
          default_retries default_delay default_imagePrompt default_model s
  with
  | (Return gptResponse, t, s') =>
      match validate_response zodSchema gptResponse with
      | Ok v => (Return v, t, s')
      | Err e => (Throw e, t, s')
      end
  | (Throw e, t, s') => (Throw e, t, s')
  | (Pending, t, s') => (Pending, t, s')
  end.
Proof.
  unfold sendGptRequestWithSchema_try, bind.
  destruct (sendGptRequest _ _ _ _ _ _ _ _ s) as [[[c | e |] t] s'];
    [| reflexivity | reflexivity].
  destruct (validate_response zodSchema c); cbn;
    rewrite app_nil_r; reflexivity.
Qed.

(** One iteration of the loop while the counter is below the bound. *)
Lemma sendGptRequestWithSchema_loop_step
    fuel retries userPrompt systemPrompt zodSchema maxRetries temperature
    baseEventData (s : Script) :
  retries < maxRetries ->
  sendGptRequestWithSchema_loop (S fuel) retries userPrompt systemPrompt
    zodSchema maxRetries temperature baseEventData s =
  match sendGptRequestWithSchema_try userPrompt systemPrompt zodSchema
          temperature baseEventData s
  with
  | (Throw e, t, s') =>
      let next :=
        sendGptRequestWithSchema_loop fuel (retries + 1) userPrompt
          systemPrompt zodSchema maxRetries temperature baseEventData s' in
      (settled_of next,
       t ++ [console_log (Log_ErrorDuringRequest (Js.message e))] ++
         trace_of next,
       rest_of next)
  | settled => settled
  end.
Proof.
  intros Hlt. cbn [sendGptRequestWithSchema_loop].
  apply Z.ltb_lt in Hlt. rewrite Hlt.
  unfold try_catch.
  destruct (sendGptRequestWithSchema_try _ _ _ _ _ s)
    as [[[v | e |] t] s']; try reflexivity.
  unfold bind at 1; cbn.
  destruct (sendGptRequestWithSchema_loop fuel (retries + 1) userPrompt
              systemPrompt zodSchema maxRetries temperature baseEventData
              s') as [[r t'] s''].
  reflexivity.
Qed.

Lemma sendGptRequestWithSchema_loop_done
    fuel retries userPrompt systemPrompt zodSchema maxRetries temperature
    baseEventData (s : Script) :
  maxRetries <= retries ->
  sendGptRequestWithSchema_loop fuel retries userPrompt systemPrompt
    zodSchema maxRetries temperature baseEventData s =
  (Throw (Js.new_Error
            (String.append "Max retries exceeded for GPT request: "
               userPrompt)), [], s).
Proof.
  intros Hge.
  assert (Hltb : (retries <? maxRetries) = false) by (apply Z.ltb_ge; lia).
  destruct fuel; cbn [sendGptRequestWithSchema_loop]; rewrite Hltb;
    reflexivity.
Qed.

(** C6.  With [maxRetries = 3], when each of three successive calls of
    the dispatcher returns a text (possibly none) that validation
    rejects, the extractor makes exactly those three calls, printing the
    rejection after each, and then throws the max-retries error whose
    message ends with the user prompt. *)
Theorem three_rejections_exhaust_retries
    userPrompt systemPrompt zodSchema temperature baseEventData
    (s0 s1 s2 s3 : Script) (c1 c2 c3 : option string)
    (t1 t2 t3 : list Effect) (e1 e2 e3 : Js.Error) :
  let call :=
    sendGptRequest userPrompt systemPrompt temperature baseEventData
      default_retries default_delay default_imagePrompt default_model in
  call s0 = (Return c1, t1, s1) ->
  validate_response zodSchema c1 = Err e1 ->
  call s1 = (Return c2, t2, s2) ->
  validate_response zodSchema c2 = Err e2 ->
  call s2 = (Return c3, t3, s3) ->
  validate_response zodSchema c3 = Err e3 ->
  sendGptRequestWithSchema userPrompt systemPrompt zodSchema 3 temperature
    baseEventData s0 =
  (Throw (Js.new_Error
            (String.append "Max retries exceeded for GPT request: "
               userPrompt)),
   t1 ++ [console_log (Log_ErrorDuringRequest (Js.message e1))] ++
   t2 ++ [console_log (Log_ErrorDuringRequest (Js.message e2))] ++
   t3 ++ [console_log (Log_ErrorDuringRequest (Js.message e3))],
   s3).
Proof.
  intros call H1 V1 H2 V2 H3 V3. subst call.
  unfold sendGptRequestWithSchema.
  change (Z.to_nat 3) with 3%nat.
  rewrite sendGptRequestWithSchema_loop_step by lia.
  rewrite sendGptRequestWithSchema_try_run, H1, V1.
  rewrite sendGptRequestWithSchema_loop_step by lia.
  rewrite sendGptRequestWithSchema_try_run, H2, V2.
  rewrite sendGptRequestWithSchema_loop_step by lia.
  rewrite sendGptRequestWithSchema_try_run, H3, V3.
  rewrite sendGptRequestWithSchema_loop_done by lia.
  cbn [settled_of trace_of rest_of fst snd]. cbn [app].
  rewrite ?app_nil_r. reflexivity.
Qed.

End Extractor.

(** C6 on the sample run: three rejected answers (a number the schema
    refuses, an empty response, an array the schema refuses), three
    requests, then the max-retries error; the fourth answer is left. *)
Lemma three_rejections_exhaust_retries_witness :
  settled_of rejected_run =
    Throw (Js.new_Error "Max retries exceeded for GPT request: Extract")
  /\ rest_of rejected_run = [Ok (answer "7")]
  /\ List.length (requests_of (trace_of rejected_run)) = 3%nat.
Proof.
  pose (call :=
          sendGptRequest (env := sample_env) "Extract" "Reply in JSON."
            default_temperature None default_retries default_delay
            default_imagePrompt default_model).
  pose (empty := {| choices := []; usage := None |}).
  pose (invalid :=
          Js.new_Error
            "Invalid response from GPT - object is not able to be parsed using the provided schema: [object]").
  pose proof
    (three_rejections_exhaust_retries (env := sample_env)
       "Extract" "Reply in JSON." never_schema default_temperature None
       [Ok (answer "7"); Ok empty; Ok (answer "[1, 2]"); Ok (answer "7")]
       [Ok empty; Ok (answer "[1, 2]"); Ok (answer "7")]
       [Ok (answer "[1, 2]"); Ok (answer "7")]
       [Ok (answer "7")]
       (Some "7") None (Some "[1, 2]")
       (trace_of (call [Ok (answer "7")]))
       (trace_of (call [Ok empty]))
       (trace_of (call [Ok (answer "[1, 2]")]))
       invalid
       (Js.new_Error "/n/n/n/n **** Empty response from GPT **** /n/n/n/n")
       invalid
       eq_refl eq_refl eq_refl eq_refl eq_refl eq_refl) as Hrun.
  subst call empty invalid. unfold rejected_run.
  rewrite Hrun. cbn [settled_of rest_of trace_of fst snd].
  repeat split; vm_compute; reflexivity.
Defined.

Section Nested.
Context {env : Env}.

(** The retry branch inside an attempt of the extractor.  An attempt
    calls [sendGptRequest] with ten retries and a delay of 60000 ms, so
    when the attempt's request fails with an error that carries
    [response.status = 429] and the next one is answered with a text that
    validates, the extractor waits 60000 ms inside that one attempt and
    returns the validated value, even with [maxRetries = 1].  The errors
    of the provider's client do not have this shape; the last section of
    the file treats them. *)
Theorem rate_limit_retry_inside_attempt
    userPrompt systemPrompt zodSchema maxRetries temperature baseEventData
    (error : Js.Error) (response : Response) (rest : Script)
    (v : Js.value) :
  0 < maxRetries ->
  Js.response_status error = Some 429 ->
  (forall b, baseEventData = Some b ->
             events_insert
               (usage_event b default_model
                  (build_messages userPrompt systemPrompt None) response)
             = None) ->
  validate_response zodSchema (first_content response) = Ok v ->
  let run := sendGptRequestWithSchema userPrompt systemPrompt zodSchema
               maxRetries temperature baseEventData
               (Err error :: Ok response :: rest) in
  let request :=
    dispatched userPrompt systemPrompt temperature None default_model in
  settled_of run = Return v
  /\ rest_of run = rest
  /\ network_and_timers (trace_of run) =
       [chat_completions_create request; setTimeout 60000;
        chat_completions_create request]
  /\ retry_lines_of (trace_of run) = [(10, 60000)].
Proof.
  intros Hmax Hstatus Hstore Hvalid run request. subst run.
  unfold sendGptRequestWithSchema.
  destruct (Z.to_nat maxRetries) as [| fuel] eqn:Hfuel; [lia |].
  rewrite sendGptRequestWithSchema_loop_step by lia.
  rewrite sendGptRequestWithSchema_try_run.
  rewrite sendGptRequest_rate_limited
    by (assumption || (unfold default_retries; lia)).
  cbv zeta.
  destruct (sendGptRequest_answered userPrompt systemPrompt temperature
              baseEventData (default_retries - 1) (default_delay * 2)
              default_imagePrompt default_model response rest Hstore)
    as (t2 & -> & N2 & _ & _ & L2).
  cbn [settled_of trace_of rest_of fst snd]. rewrite Hvalid.
  cbn [settled_of trace_of rest_of fst snd].
  destruct (budget_log_silent (String.append userPrompt systemPrompt)
              default_model) as (Bn & _ & _ & Bl).
  repeat split.
  - rewrite !network_and_timers_app, Bn, N2. reflexivity.
  - rewrite !retry_lines_of_app, Bl, L2. reflexivity.
Qed.

(** C8.  When the dispatcher returns a non-empty text that, with its
    code fences stripped, parses as an array whose elements all pass
    the schema, the attempt returns the array of the validated data in
    the order of the parsed elements: from the first attempt of a call
    and from any later iteration of the loop. *)
Theorem valid_array_is_returned
    userPrompt systemPrompt zodSchema maxRetries temperature baseEventData
    (s s' : Script) (t : list Effect) (gptResponse : string)
    (items validated : list Js.value) :
  sendGptRequest userPrompt systemPrompt temperature baseEventData
    default_retries default_delay default_imagePrompt default_model s =
    (Return (Some gptResponse), t, s') ->
  gptResponse <> "" ->
  parse (removeMarkdownCodeblocks gptResponse) = Js.Array items ->
  map (safeParse zodSchema) items = map SafeParseSuccess validated ->
  (0 < maxRetries ->
   sendGptRequestWithSchema userPrompt systemPrompt zodSchema maxRetries
     temperature baseEventData s = (Return (Js.Array validated), t, s'))
  /\ (forall fuel retries,
        retries < maxRetries ->
        sendGptRequestWithSchema_loop (S fuel) retries userPrompt
          systemPrompt zodSchema maxRetries temperature baseEventData s =
        (Return (Js.Array validated), t, s')).
Proof.
  intros Hcall Hnonempty Hparse Hvalid.
  assert (Hok : validate_response zodSchema (Some gptResponse) =
                Ok (Js.Array validated)).
  { unfold validate_response.
    destruct gptResponse as [| c rest]; [congruence |].
    rewrite Hparse. cbv zeta. rewrite Hvalid.
    assert (Hnone : forall l,
              filter (fun result => negb (success result))
                (map SafeParseSuccess l) = []).
    { induction l as [| d l IH]; [reflexivity | exact IH]. }
    assert (Hdata : forall l, map data (map SafeParseSuccess l) = l).
    { induction l as [| d l IH]; [reflexivity |].
      cbn. rewrite IH. reflexivity. }
    rewrite Hnone, Hdata. reflexivity. }
  assert (Hloop : forall fuel retries,
            retries < maxRetries ->
            sendGptRequestWithSchema_loop (S fuel) retries userPrompt
              systemPrompt zodSchema maxRetries temperature baseEventData
              s = (Return (Js.Array validated), t, s')).
  { intros fuel retries Hlt.
    rewrite sendGptRequestWithSchema_loop_step by assumption.
    rewrite sendGptRequestWithSchema_try_run, Hcall, Hok. reflexivity. }
  split; [| exact Hloop].
  intros Hmax. unfold sendGptRequestWithSchema.
  destruct (Z.to_nat maxRetries) as [| fuel] eqn:Hfuel; [lia |].
  apply Hloop. lia.
Qed.

End Nested.

(** The same on the sample run: with [maxRetries = 1] an error carrying
    [response.status = 429] inside the single attempt is followed by a
    60000 ms wait and a second request, and the validated number is
    returned. *)
Lemma extractor_attempt_retries_on_rate_limit :
  settled_of limited_extractor_run = Return (Js.Number 7)
  /\ timeouts_of (trace_of limited_extractor_run) = [60000]
  /\ retry_lines_of (trace_of limited_extractor_run) = [(10, 60000)]
  /\ List.length (requests_of (trace_of limited_extractor_run)) = 2%nat.
Proof. repeat split; vm_compute; reflexivity. Qed.

(** The retry branch inside an attempt, on the same run. *)
Lemma rate_limit_retry_inside_attempt_witness :
  settled_of limited_extractor_run = Return (Js.Number 7)
  /\ rest_of limited_extractor_run = []
  /\ network_and_timers (trace_of limited_extractor_run) =
       [chat_completions_create
          (dispatched (env := sample_env) "Extract" "Reply in JSON."
             default_temperature None default_model);
        setTimeout 60000;
        chat_completions_create
          (dispatched (env := sample_env) "Extract" "Reply in JSON."
             default_temperature None default_model)]
  /\ retry_lines_of (trace_of limited_extractor_run) = [(10, 60000)].
Proof.
  exact (rate_limit_retry_inside_attempt (env := sample_env)
           "Extract" "Reply in JSON." number_schema 1 default_temperature
           None rate_limited (answer "7") [] (Js.Number 7)
           eq_refl eq_refl (fun b H => eq_refl) eq_refl).
Defined.

(** C8 on an array in triple backticks: the fences are stripped, both
    numbers validate, and the array comes back in order. *)
Lemma valid_array_is_returned_witness :
  settled_of fenced_array_run = Return (Js.Array [Js.Number 1; Js.Number 2])
  /\ rest_of fenced_array_run = [].
Proof.
  assert (Hnonempty : "```[1, 2]```" <> "") by discriminate.
  destruct (valid_array_is_returned (env := sample_env)
              "Extract" "Reply in JSON." number_schema 3 default_temperature
              None [Ok (answer "```[1, 2]```")] []
              (trace_of
                 (sendGptRequest (env := sample_env) "Extract"
                    "Reply in JSON." default_temperature None default_retries
                    default_delay default_imagePrompt default_model
                    [Ok (answer "```[1, 2]```")]))
              "```[1, 2]```" [Js.Number 1; Js.Number 2]
              [Js.Number 1; Js.Number 2]
              eq_refl Hnonempty eq_refl eq_refl) as (Hfirst & _).
  unfold fenced_array_run.
  rewrite (Hfirst eq_refl). split; reflexivity.
Defined.

(** * Further properties of the request layer *)

(** ** The budget in every case *)

Section BudgetAlways.
Context {env : Env}.

(** X1.  [getMaxTokensForResponse] never throws and never waits: for
    every text and model it settles with a positive value, which is at
    most the output limit of the model or half its window. *)
Theorem budget_is_always_positive
    (inputText : string) (model : Model) (s : Script) :
  exists n t,
    getMaxTokensForResponse inputText model s = (Return n, t, s)
    /\ 0 < n
    /\ n <= Z.max (MAX_OUTPUT model) ((CONTEXT_WINDOW model + 1) / 2).
Proof.
  rewrite getMaxTokensForResponse_budget.
  exists (budget inputText model), (budget_log inputText model).
  split; [reflexivity |].
  unfold budget, settled_of, getMaxTokensForResponse, try_catch.
  unfold getMaxTokensForResponse_try, bind at 1, lift.
  assert (Hhalf : 0 < half_context model /\
                  half_context model = (CONTEXT_WINDOW model + 1) / 2).
  { destruct model; vm_compute; repeat split; reflexivity. }
  assert (Hout : 0 < MAX_OUTPUT model) by (destruct model; reflexivity).
  destruct Hhalf as [Hpos Heq].
  destruct (encode inputText) as [toks | e]; cbn.
  - destruct (Z.leb_spec
                (CONTEXT_WINDOW model - Z.of_nat (List.length toks)
                 - context_padding (CONTEXT_WINDOW model)) 0); cbn.
    + rewrite <- Heq. lia.
    + unfold Js.Math_min. lia.
  - rewrite <- Heq. lia.
Qed.

(** X2.  When the tokenizer throws, the error is printed and the budget
    is half the context window, whatever the text. *)
Theorem tokenizer_failure_falls_back
    (inputText : string) (model : Model) (error : Js.Error) (s : Script) :
  encode inputText = Err error ->
  getMaxTokensForResponse inputText model s =
    (Return ((CONTEXT_WINDOW model + 1) / 2),
     [console_log (Log_BudgetError error)], s).
Proof.
  intros Henc.
  unfold getMaxTokensForResponse, try_catch.
  unfold getMaxTokensForResponse_try, bind at 1, lift.
  rewrite Henc; cbn.
  destruct (half_context_exact model) as [-> _]. reflexivity.
Qed.

(** X3.  The fallback is not capped by the output limit: on the two
    128000-token models, whenever the [catch] branch is taken the request
    asks for 64000 tokens, above the limit of 4096 in [MAX_OUTPUT]. *)
Theorem fallback_exceeds_output_limit
    userPrompt systemPrompt temperature baseEventData retries delay
    imagePrompt (model : Model) (s : Script) :
  model <> gpt_4_0613 ->
  falls_back (String.append userPrompt systemPrompt) model ->
  exists first later,
    requests_of
      (trace_of (sendGptRequest userPrompt systemPrompt temperature
                   baseEventData retries delay imagePrompt model s)) =
    first :: later
    /\ max_tokens first = 64000
    /\ MAX_OUTPUT model = 4096.
Proof.
  intros Hmodel Hfalls.
  destruct (sendGptRequest_requests userPrompt systemPrompt temperature
              baseEventData retries delay imagePrompt model s)
    as [later Hreq].
  exists (dispatched userPrompt systemPrompt temperature imagePrompt model),
    later.
  split; [exact Hreq |].
  unfold dispatched; cbn [max_tokens].
  unfold falls_back in Hfalls.
  unfold budget, settled_of, getMaxTokensForResponse, try_catch.
  unfold getMaxTokensForResponse_try, bind at 1, lift.
  destruct (encode (String.append userPrompt systemPrompt)) as [toks | e];
    cbn.
  - rewrite context_padding_exact.
    destruct (Z.leb_spec
                (CONTEXT_WINDOW model - Z.of_nat (List.length toks)
                 - (- ((- CONTEXT_WINDOW model) / 100))) 0); [| lia].
    cbn. destruct model; try congruence; split; vm_compute; reflexivity.
  - destruct model; try congruence; split; vm_compute; reflexivity.
Qed.

End BudgetAlways.

(** X2 on the environment whose tokenizer throws. *)
Lemma tokenizer_failure_falls_back_witness :
  getMaxTokensForResponse (env := failing_tokenizer_env) "Hi"
    gpt_4_turbo_preview [] =
    (Return 64000, [console_log (Log_BudgetError tokenizer_error)], []).
Proof.
  exact (tokenizer_failure_falls_back (env := failing_tokenizer_env) "Hi"
           gpt_4_turbo_preview tokenizer_error [] eq_refl).
Defined.

(** X3 on the same environment and the default model. *)
Lemma fallback_exceeds_output_limit_witness :
  exists first later,
    requests_of
      (trace_of (sendGptRequest (env := failing_tokenizer_env) "Hi"
                   default_systemPrompt default_temperature None
                   default_retries default_delay None default_model
                   [Ok (answer "ok")])) =
    first :: later
    /\ max_tokens first = 64000
    /\ MAX_OUTPUT default_model = 4096.
Proof.
  apply (fallback_exceeds_output_limit (env := failing_tokenizer_env) "Hi"
           default_systemPrompt default_temperature None default_retries
           default_delay None default_model [Ok (answer "ok")]).
  - discriminate.
  - exact I.
Defined.

(** ** The shape of every retry sequence *)

Section RetryShape.
Context {env : Env}.

Lemma opening_silent userPrompt systemPrompt :
  requests_of (opening userPrompt systemPrompt) = []
  /\ timeouts_of (opening userPrompt systemPrompt) = []
  /\ retry_lines_of (opening userPrompt systemPrompt) = [].
Proof. repeat split; reflexivity. Qed.

Lemma sendGptRequest_retry_shape
    userPrompt systemPrompt temperature baseEventData (s : Script) :
  forall retries delay imagePrompt model,
    let t := trace_of (sendGptRequest userPrompt systemPrompt temperature
                         baseEventData retries delay imagePrompt model s) in
    let n := List.length (timeouts_of t) in
    timeouts_of t = delays_from delay n
    /\ retry_lines_of t = countdown retries delay n
    /\ List.length (requests_of t) = S n.
Proof.
  induction s as [| a0 s IH]; intros retries delay imagePrompt model.
  all: match goal with
       | |- context [sendGptRequest ?u ?sp ?temp ?b ?r ?d ?img ?m ?script] =>
           pose proof (sendGptRequest_step u sp temp b r d img m script)
             as Hstep;
           pose proof (sendGptRequest_try_trace u sp temp b img m script)
             as (Hreq & Htim & Hlin & _);
           cbv zeta in Hstep;
           destruct Hstep as [(tail & -> & Htreq & Httim & Htlin)
                             | (error & a & _ & Hs & _ & _ & ->)]
       end.
  all: cbv zeta; cbn [trace_of fst snd];
    rewrite ?requests_of_app, ?timeouts_of_app, ?retry_lines_of_app,
      ?Hreq, ?Htim, ?Hlin, ?Htreq, ?Httim, ?Htlin;
    cbn [opening requests_of timeouts_of retry_lines_of app List.length
         delays_from countdown].
  - repeat split; reflexivity.
  - discriminate Hs.
  - repeat split; reflexivity.
  - injection Hs as _ <-.
    destruct (IH (retries - 1) (delay * 2) default_imagePrompt default_model)
      as (Ht & Hl & Hr).
    cbv zeta in Ht, Hl, Hr.
    rewrite Hr. rewrite Ht at 1. rewrite Hl at 1.
    repeat split; reflexivity.
Qed.

(** X5.  In every call, whatever the provider answers, the timers set
    are [delay], [2 * delay], [4 * delay], ... in this order, the
    "Received 429" lines count the retries down from [retries] by one,
    and there is exactly one more request than timers. *)
Theorem delays_double_and_retries_count_down
    userPrompt systemPrompt temperature baseEventData (s : Script)
    retries delay imagePrompt model :
  let t := trace_of (sendGptRequest userPrompt systemPrompt temperature
                       baseEventData retries delay imagePrompt model s) in
  let n := List.length (timeouts_of t) in
  timeouts_of t = delays_from delay n
  /\ retry_lines_of t = countdown retries delay n
  /\ List.length (requests_of t) = S n.
Proof. apply sendGptRequest_retry_shape. Qed.

(** X4.  With a retry count that is not negative, a call sets at most
    [retries] timers and sends at most [retries + 1] requests. *)
Theorem requests_bounded_by_retries
    userPrompt systemPrompt temperature baseEventData (s : Script)
    retries delay imagePrompt model :
  0 <= retries ->
  let t := trace_of (sendGptRequest userPrompt systemPrompt temperature
                       baseEventData retries delay imagePrompt model s) in
  Z.of_nat (List.length (timeouts_of t)) <= retries
  /\ Z.of_nat (List.length (requests_of t)) <= retries + 1.
Proof.
  intros Hretries t.
  assert (Htimers : Z.of_nat (List.length (timeouts_of t)) <= retries).
  { subst t. revert retries delay imagePrompt model Hretries.
    induction s as [| a0 s IH];
      intros retries delay imagePrompt model Hretries.
    all: match goal with
         | |- context [sendGptRequest ?u ?sp ?temp ?b ?r ?d ?img ?m ?script]
           =>
             pose proof (sendGptRequest_step u sp temp b r d img m script)
               as Hstep;
             pose proof (sendGptRequest_try_trace u sp temp b img m script)
               as (_ & Htim & _);
             cbv zeta in Hstep;
             destruct Hstep as [(tail & -> & _ & Httim & _)
                               | (error & a & _ & Hs & Hnz & _ & ->)]
         end.
    all: cbn [trace_of fst snd];
      rewrite ?timeouts_of_app, ?Htim, ?Httim;
      cbn [opening timeouts_of app List.length].
    - lia.
    - discriminate Hs.
    - lia.
    - injection Hs as _ <-.
      specialize (IH (retries - 1) (delay * 2) default_imagePrompt
                    default_model ltac:(lia)).
      lia. }
  split; [exact Htimers |].
  destruct (sendGptRequest_retry_shape userPrompt systemPrompt
              temperature baseEventData s retries delay imagePrompt model)
    as (_ & _ & Hcount).
  cbv zeta in Hcount. fold t in Hcount. rewrite Hcount. lia.
Qed.

End RetryShape.

(** X4 on the call that is rate-limited twice: two timers, three
    requests, within the ten retries. *)
Lemma requests_bounded_by_retries_witness :
  Z.of_nat (List.length (timeouts_of (trace_of backoff_run))) <= 10
  /\ Z.of_nat (List.length (requests_of (trace_of backoff_run))) <= 10 + 1.
Proof.
  apply (requests_bounded_by_retries (env := sample_env) "Hi"
           default_systemPrompt default_temperature (Some tt)
           [Err rate_limited; Err rate_limited; Ok (answer "ok")]
           10 60000 None default_model).
  discriminate.
Defined.

(** ** Usage events *)

Section UsageEvents.
Context {env : Env}.

Lemma events_of_app (t1 t2 : list Effect) :
  events_of (t1 ++ t2) = events_of t1 ++ events_of t2.
Proof.
  induction t1 as [| [l | e | r | ev | d] t1 IH]; cbn; rewrite ?IH;
    reflexivity.
Qed.

Lemma attempt_errors_of_app (t1 t2 : list Effect) :
  attempt_errors_of (t1 ++ t2) =
  attempt_errors_of t1 ++ attempt_errors_of t2.
Proof.
  induction t1 as [| [[] | e | r | ev | d] t1 IH]; cbn; rewrite ?IH;
    reflexivity.
Qed.

(** The calculator prints at most its error line. *)
Lemma budget_log_quiet (inputText : string) (model : Model) :
  events_of (budget_log inputText model) = []
  /\ attempt_errors_of (budget_log inputText model) = [].
Proof.
  unfold budget_log, trace_of, getMaxTokensForResponse, try_catch.
  unfold getMaxTokensForResponse_try, bind at 1, lift.
  destruct (encode inputText) as [toks | e]; cbn.
  - destruct (_ <=? 0); cbn; split; reflexivity.
  - split; reflexivity.
Qed.

(** X8.  A call without contextual metadata never writes to the event
    store, whatever the provider answers and however often it retries. *)
Theorem no_event_without_metadata
    userPrompt systemPrompt temperature (s : Script) :
  forall retries delay imagePrompt model,
    events_of
      (trace_of (sendGptRequest userPrompt systemPrompt temperature None
                   retries delay imagePrompt model s)) = [].
Proof.
  induction s as [| a0 s IH]; intros retries delay imagePrompt model.
  all: rewrite sendGptRequest_unfold, sendGptRequest_try_run; cbv zeta.
  all: destruct (budget_log_quiet (String.append userPrompt systemPrompt)
                   model) as (Hquiet & _).
  - cbn [trace_of fst snd]. rewrite !events_of_app, Hquiet. reflexivity.
  - destruct a0 as [response | error].
    + cbn [trace_of fst snd]. rewrite !events_of_app, Hquiet. reflexivity.
    + destruct ((retries =? 0) || status_is_not_429 error);
        cbv zeta; cbn [trace_of fst snd];
        rewrite !events_of_app, Hquiet, ?IH; reflexivity.
Qed.

(** X9.  When the provider has answered but the event store throws (an
    error that is not a 429, or any error with no retries left), the
    call throws the store's error: the answer is lost, after one request
    and one attempted write. *)
Theorem event_store_failure_loses_the_answer
    userPrompt systemPrompt temperature (metadata : BaseEventData)
    retries delay imagePrompt model (response : Response) (rest : Script)
    (error : Js.Error) :
  let request :=
    dispatched userPrompt systemPrompt temperature imagePrompt model in
  let event :=
    usage_event metadata model
      (build_messages userPrompt systemPrompt imagePrompt) response in
  events_insert event = Some error ->
  Js.response_status error <> Some 429 \/ retries = 0 ->
  let run :=
    sendGptRequest userPrompt systemPrompt temperature (Some metadata)
      retries delay imagePrompt model (Ok response :: rest) in
  settled_of run = Throw error
  /\ rest_of run = rest
  /\ requests_of (trace_of run) = [request]
  /\ events_of (trace_of run) = [event]
  /\ timeouts_of (trace_of run) = [].
Proof.
  intros request event Hstore Hstop run. subst run.
  rewrite sendGptRequest_unfold, sendGptRequest_try_run. cbv zeta.
  fold event. rewrite Hstore.
  assert ((retries =? 0) || status_is_not_429 error = true) as ->.
  { destruct Hstop as [Hstatus | ->]; [| reflexivity].
    apply orb_true_iff; right. unfold status_is_not_429.
    destruct (Js.response_status error) as [status |]; [| reflexivity].
    apply negb_true_iff, Z.eqb_neq. congruence. }
  cbn [settled_of rest_of trace_of fst snd].
  destruct (budget_log_silent (String.append userPrompt systemPrompt) model)
    as (_ & Hreq & Htim & _).
  destruct (budget_log_quiet (String.append userPrompt systemPrompt) model)
    as (Hquiet & _).
  rewrite !requests_of_app, !events_of_app, !timeouts_of_app, Hreq, Htim,
    Hquiet.
  repeat split; reflexivity.
Qed.

End UsageEvents.

(** X9 on a store that refuses the write: the answer "ok" is lost. *)
Lemma event_store_failure_loses_the_answer_witness :
  settled_of
    (sendGptRequest (env := failing_store_env) "Hi" default_systemPrompt
       default_temperature (Some tt) 10 60000 None default_model
       [Ok (answer "ok")]) = Throw store_error
  /\ List.length
       (requests_of
          (trace_of
             (sendGptRequest (env := failing_store_env) "Hi"
                default_systemPrompt default_temperature (Some tt) 10 60000
                None default_model [Ok (answer "ok")]))) = 1%nat.
Proof.
  assert (Hstatus : Js.response_status store_error <> Some 429)
    by (cbn; discriminate).
  destruct (event_store_failure_loses_the_answer (env := failing_store_env)
              "Hi" default_systemPrompt default_temperature tt 10 60000 None
              default_model (answer "ok") [] store_error eq_refl
              (or_introl Hstatus))
    as (Hsettled & _ & Hreq & _).
  split; [exact Hsettled |].
  exact (f_equal (@List.length Request) Hreq).
Defined.

(** ** More on the extractor *)

Section ExtractorAlways.
Context {env : Env}.

(** The dispatcher prints none of the extractor's lines. *)
Lemma sendGptRequest_no_attempt_errors
    userPrompt systemPrompt temperature baseEventData (s : Script) :
  forall retries delay imagePrompt model,
    attempt_errors_of
      (trace_of (sendGptRequest userPrompt systemPrompt temperature
                   baseEventData retries delay imagePrompt model s)) = [].
Proof.
  induction s as [| a0 s IH]; intros retries delay imagePrompt model.
  all: rewrite sendGptRequest_unfold, sendGptRequest_try_run; cbv zeta.
  all: destruct (budget_log_quiet (String.append userPrompt systemPrompt)
                   model) as (_ & Hquiet).
  - cbn [trace_of fst snd].
    rewrite !attempt_errors_of_app, Hquiet. reflexivity.
  - destruct a0 as [response | error].
    + destruct baseEventData as [b |];
        [destruct (events_insert _) as [error |] |];
        try (cbn [trace_of fst snd];
             rewrite !attempt_errors_of_app, Hquiet; reflexivity).
      destruct ((retries =? 0) || status_is_not_429 error);
        cbv zeta; cbn [trace_of fst snd];
        rewrite !attempt_errors_of_app, Hquiet, ?IH; reflexivity.
    + destruct ((retries =? 0) || status_is_not_429 error);
        cbv zeta; cbn [trace_of fst snd];
        rewrite !attempt_errors_of_app, Hquiet, ?IH; reflexivity.
Qed.

(** What one attempt leaves in the trace. *)
Lemma sendGptRequestWithSchema_try_trace
    userPrompt systemPrompt zodSchema temperature baseEventData
    (s : Script) :
  let t := trace_of (sendGptRequestWithSchema_try userPrompt systemPrompt
                       zodSchema temperature baseEventData s) in
  attempt_errors_of t = []
  /\ Forall (eq (dispatched userPrompt systemPrompt temperature None
                   default_model)) (requests_of t).
Proof.
  cbv zeta. rewrite sendGptRequestWithSchema_try_run.
  pose proof (sendGptRequest_no_attempt_errors userPrompt systemPrompt
                temperature baseEventData s default_retries default_delay
                default_imagePrompt default_model) as Herr.
  destruct (sendGptRequest_later_requests userPrompt systemPrompt
              temperature baseEventData s default_retries default_delay
              default_imagePrompt default_model) as (later & Hreq & Hlater).
  assert (Hall : Forall (eq (dispatched userPrompt systemPrompt temperature
                               None default_model))
                   (requests_of
                      (trace_of
                         (sendGptRequest userPrompt systemPrompt temperature
                            baseEventData default_retries default_delay
                            default_imagePrompt default_model s)))).
  { rewrite Hreq. constructor; [reflexivity | exact Hlater]. }
  destruct (sendGptRequest userPrompt systemPrompt temperature baseEventData
              default_retries default_delay default_imagePrompt default_model
              s) as [[[c | e |] t] s'];
    [destruct (validate_response zodSchema c) |..];
    cbn [trace_of fst snd] in *; split; assumption.
Qed.

(** X10.  The only error [sendGptRequestWithSchema] ever throws is the
    max-retries error with the user prompt: provider errors, event-store
    errors, empty answers and validation failures are all caught inside
    the loop. *)
Theorem extractor_only_throws_max_retries
    userPrompt systemPrompt zodSchema maxRetries temperature baseEventData
    (s : Script) (error : Js.Error) :
  settled_of (sendGptRequestWithSchema userPrompt systemPrompt zodSchema
                maxRetries temperature baseEventData s) = Throw error ->
  error = max_retries_exceeded userPrompt.
Proof.
  unfold sendGptRequestWithSchema.
  generalize (Z.to_nat maxRetries) as fuel. generalize 0 as retries.
  intros retries fuel. revert retries s.
  induction fuel as [| fuel IH]; intros retries s.
  - cbn [sendGptRequestWithSchema_loop].
    destruct (retries <? maxRetries); [discriminate |].
    unfold throw, settled_of; cbn [fst].
    intros Hthrow. injection Hthrow as <-. reflexivity.
  - destruct (Z.ltb_spec retries maxRetries) as [Hlt | Hge].
    + rewrite sendGptRequestWithSchema_loop_step by assumption.
      destruct (sendGptRequestWithSchema_try _ _ _ _ _ s)
        as [[[v | e |] t] s']; cbn [settled_of fst]; try discriminate.
      apply IH.
    + rewrite sendGptRequestWithSchema_loop_done by assumption.
      unfold settled_of; cbn [fst].
      intros Hthrow. injection Hthrow as <-. reflexivity.
Qed.

(** X11.  With [maxRetries] zero or negative the extractor sends nothing:
    it throws the max-retries error at once and leaves the script
    untouched. *)
Theorem extractor_without_attempts
    userPrompt systemPrompt zodSchema maxRetries temperature baseEventData
    (s : Script) :
  maxRetries <= 0 ->
  sendGptRequestWithSchema userPrompt systemPrompt zodSchema maxRetries
    temperature baseEventData s =
  (Throw (max_retries_exceeded userPrompt), [], s).
Proof.
  intros Hmax. unfold sendGptRequestWithSchema.
  apply sendGptRequestWithSchema_loop_done. assumption.
Qed.

(** X12.  The extractor gives up on at most [maxRetries] attempts: when
    it throws it has given up on exactly that many, and when it returns
    a value on fewer. *)
Theorem extractor_attempts_bounded
    userPrompt systemPrompt zodSchema maxRetries temperature baseEventData
    (s : Script) :
  let run := sendGptRequestWithSchema userPrompt systemPrompt zodSchema
               maxRetries temperature baseEventData s in
  let failed := List.length (attempt_errors_of (trace_of run)) in
  (failed <= Z.to_nat maxRetries)%nat
  /\ (forall error, settled_of run = Throw error ->
                    failed = Z.to_nat maxRetries)
  /\ (forall v, settled_of run = Return v ->
                (failed < Z.to_nat maxRetries)%nat).
Proof.
  cbv zeta. unfold sendGptRequestWithSchema.
  assert (Hgen : forall fuel retries (s : Script),
    fuel = Z.to_nat (maxRetries - retries) ->
    let run := sendGptRequestWithSchema_loop fuel retries userPrompt
                 systemPrompt zodSchema maxRetries temperature baseEventData
                 s in
    let failed := List.length (attempt_errors_of (trace_of run)) in
    (failed <= fuel)%nat
    /\ (forall error, settled_of run = Throw error -> failed = fuel)
    /\ (forall v, settled_of run = Return v -> (failed < fuel)%nat)).
  { induction fuel as [| fuel IH]; intros retries s0 Hfuel; cbv zeta.
    - rewrite sendGptRequestWithSchema_loop_done by lia.
      cbn. repeat split; try lia. discriminate.
    - rewrite sendGptRequestWithSchema_loop_step by lia.
      pose proof (sendGptRequestWithSchema_try_trace userPrompt systemPrompt
                    zodSchema temperature baseEventData s0) as (Herr & _).
      destruct (sendGptRequestWithSchema_try _ _ _ _ _ s0)
        as [[[v | e |] t] s']; cbn [trace_of settled_of fst snd] in *.
      + rewrite Herr. cbn. repeat split; try lia; discriminate.
      + destruct (IH (retries + 1) s' ltac:(lia)) as (Hle & Hthrow & Hret).
        cbv zeta in Hle, Hthrow, Hret.
        rewrite !attempt_errors_of_app, Herr.
        cbn [attempt_errors_of app List.length].
        repeat split.
        * lia.
        * intros error Hs. rewrite (Hthrow error Hs). reflexivity.
        * intros v Hs. specialize (Hret v Hs). lia.
      + rewrite Herr. cbn. repeat split; try lia; discriminate. }
  apply (Hgen (Z.to_nat maxRetries) 0 s).
  f_equal. lia.
Qed.

(** X13.  Every request an extractor run sends, in any attempt and any
    retry, is the plain text request: default model, system and user
    message, and the budget of their concatenation. *)
Theorem extractor_requests_are_plain_text
    userPrompt systemPrompt zodSchema maxRetries temperature baseEventData
    (s : Script) :
  Forall (eq (dispatched userPrompt systemPrompt temperature None
                default_model))
    (requests_of
       (trace_of (sendGptRequestWithSchema userPrompt systemPrompt zodSchema
                    maxRetries temperature baseEventData s))).
Proof.
  unfold sendGptRequestWithSchema.
  generalize (Z.to_nat maxRetries) as fuel. generalize 0 as retries.
  intros retries fuel. revert retries s.
  induction fuel as [| fuel IH]; intros retries s.
  - cbn [sendGptRequestWithSchema_loop].
    destruct (retries <? maxRetries); cbn; constructor.
  - destruct (Z.ltb_spec retries maxRetries) as [Hlt | Hge].
    + rewrite sendGptRequestWithSchema_loop_step by assumption.
      pose proof (sendGptRequestWithSchema_try_trace userPrompt systemPrompt
                    zodSchema temperature baseEventData s) as (_ & Hreq).
      destruct (sendGptRequestWithSchema_try _ _ _ _ _ s)
        as [[[v | e |] t] s']; cbn [trace_of fst snd] in *;
        try assumption.
      rewrite !requests_of_app. cbn [requests_of app].
      apply Forall_app. split; [assumption | apply IH].
    + rewrite sendGptRequestWithSchema_loop_done by assumption.
      constructor.
Qed.

End ExtractorAlways.

Section ExtractorAttempts.
Context {env : Env}.

(** X14.  A provider error that is not a 429 does not leave the
    extractor: it uses up one attempt, its message is printed, and the
    next attempt's valid answer is returned, with no timer set. *)
Theorem extractor_counts_provider_error_as_attempt
    userPrompt systemPrompt zodSchema maxRetries temperature baseEventData
    (error : Js.Error) (response : Response) (rest : Script)
    (v : Js.value) :
  2 <= maxRetries ->
  Js.response_status error <> Some 429 ->
  (forall b, baseEventData = Some b ->
             events_insert
               (usage_event b default_model
                  (build_messages userPrompt systemPrompt None) response)
             = None) ->
  validate_response zodSchema (first_content response) = Ok v ->
  let run := sendGptRequestWithSchema userPrompt systemPrompt zodSchema
               maxRetries temperature baseEventData
               (Err error :: Ok response :: rest) in
  let request :=
    dispatched userPrompt systemPrompt temperature None default_model in
  settled_of run = Return v
  /\ rest_of run = rest
  /\ attempt_errors_of (trace_of run) = [Js.message error]
  /\ requests_of (trace_of run) = [request; request]
  /\ timeouts_of (trace_of run) = [].
Proof.
  intros Hmax Hstatus Hstore Hvalid run request. subst run.
  unfold sendGptRequestWithSchema.
  destruct (Z.to_nat maxRetries) as [| [| fuel]] eqn:Hfuel; try lia.
  rewrite sendGptRequestWithSchema_loop_step by lia.
  rewrite sendGptRequestWithSchema_try_run.
  rewrite sendGptRequest_unfold, sendGptRequest_try_run. cbv zeta.
  assert ((default_retries =? 0) || status_is_not_429 error = true) as ->.
  { unfold status_is_not_429.
    destruct (Js.response_status error) as [status |]; [| reflexivity].
    cbn. apply negb_true_iff, Z.eqb_neq. congruence. }
  cbv zeta.
  rewrite sendGptRequestWithSchema_loop_step by lia.
  rewrite sendGptRequestWithSchema_try_run.
  pose proof (sendGptRequest_no_attempt_errors userPrompt systemPrompt
                temperature baseEventData (Ok response :: rest)
                default_retries default_delay default_imagePrompt
                default_model) as Herr2.
  destruct (sendGptRequest_answered userPrompt systemPrompt temperature
              baseEventData default_retries default_delay default_imagePrompt
              default_model response rest Hstore)
    as (t2 & Hrun2 & _ & Hreq2 & Htim2 & _).
  rewrite Hrun2 in Herr2. cbn [trace_of fst snd] in Herr2.
  rewrite Hrun2, Hvalid. cbn [settled_of rest_of trace_of fst snd].
  destruct (budget_log_silent (String.append userPrompt systemPrompt)
              default_model) as (_ & Hreq & Htim & _).
  destruct (budget_log_quiet (String.append userPrompt systemPrompt)
              default_model) as (_ & Hquiet).
  rewrite !attempt_errors_of_app, !requests_of_app, !timeouts_of_app,
    Hreq, Htim, Hquiet, Hreq2, Htim2, Herr2.
  repeat split; reflexivity.
Qed.

(** X15.  One element the schema refuses rejects the whole array: the
    attempt throws, naming the failed results, and none of the elements
    that did validate is returned. *)
Theorem one_invalid_element_rejects_array
    userPrompt systemPrompt zodSchema temperature baseEventData
    (s s' : Script) (t : list Effect) (gptResponse : string)
    (items : list Js.value) (item : Js.value) :
  sendGptRequest userPrompt systemPrompt temperature baseEventData
    default_retries default_delay default_imagePrompt default_model s =
    (Return (Some gptResponse), t, s') ->
  gptResponse <> "" ->
  parse (removeMarkdownCodeblocks gptResponse) = Js.Array items ->
  In item items ->
  success (safeParse zodSchema item) = false ->
  let failedValidations :=
    filter (fun result => negb (success result))
      (map (safeParse zodSchema) items) in
  sendGptRequestWithSchema_try userPrompt systemPrompt zodSchema temperature
    baseEventData s =
  (Throw (Js.new_Error
            (String.append
               "Invalid response from GPT - object is not able to be parsed using the provided schema: "
               (JSON_stringify _ failedValidations))), t, s')
  /\ In (safeParse zodSchema item) failedValidations.
Proof.
  intros Hcall Hnonempty Hparse Hin Hfail failed.
  assert (Hmember : In (safeParse zodSchema item) failed).
  { subst failed. apply filter_In. split.
    - apply in_map. exact Hin.
    - rewrite Hfail. reflexivity. }
  split; [| exact Hmember].
  rewrite sendGptRequestWithSchema_try_run, Hcall.
  unfold validate_response.
  destruct gptResponse as [| c rest]; [congruence |].
  rewrite Hparse. cbv zeta. fold failed.
  destruct failed as [| r failed']; [contradiction |].
  reflexivity.
Qed.

(** X16.  When the parsed value is not an array, it is validated as a
    single value and the schema's output for it is returned. *)
Theorem single_value_is_returned
    userPrompt systemPrompt zodSchema maxRetries temperature baseEventData
    (s s' : Script) (t : list Effect) (gptResponse : string)
    (validated : Js.value) :
  sendGptRequest userPrompt systemPrompt temperature baseEventData
    default_retries default_delay default_imagePrompt default_model s =
    (Return (Some gptResponse), t, s') ->
  gptResponse <> "" ->
  (forall items,
      parse (removeMarkdownCodeblocks gptResponse) <> Js.Array items) ->
  safeParse zodSchema (parse (removeMarkdownCodeblocks gptResponse)) =
    SafeParseSuccess validated ->
  0 < maxRetries ->
  sendGptRequestWithSchema userPrompt systemPrompt zodSchema maxRetries
    temperature baseEventData s = (Return validated, t, s').
Proof.
  intros Hcall Hnonempty Hsingle Hvalid Hmax.
  unfold sendGptRequestWithSchema.
  destruct (Z.to_nat maxRetries) as [| fuel] eqn:Hfuel; [lia |].
  rewrite sendGptRequestWithSchema_loop_step by lia.
  rewrite sendGptRequestWithSchema_try_run, Hcall.
  unfold validate_response.
  destruct gptResponse as [| c rest]; [congruence |].
  destruct (parse (removeMarkdownCodeblocks (String c rest))) as
    [| | b | n | str | items | fields] eqn:Hparse;
    try (rewrite Hvalid; reflexivity).
  exfalso. exact (Hsingle items eq_refl).
Qed.

End ExtractorAttempts.

(** X11 with [maxRetries = 0]: the answer that was ready is not even
    asked for. *)
Lemma extractor_without_attempts_witness :
  no_attempt_run =
  (Throw (max_retries_exceeded "Extract"), [], [Ok (answer "7")]).
Proof.
  apply (extractor_without_attempts (env := sample_env) "Extract"
           "Reply in JSON." number_schema 0 default_temperature None
           [Ok (answer "7")]).
  discriminate.
Defined.

(** X14 on a server error followed by a valid number. *)
Lemma extractor_counts_provider_error_as_attempt_witness :
  settled_of recovered_run = Return (Js.Number 7)
  /\ attempt_errors_of (trace_of recovered_run) = ["Internal server error"]
  /\ timeouts_of (trace_of recovered_run) = [].
Proof.
  assert (Hstatus : Js.response_status server_error <> Some 429)
    by (cbn; discriminate).
  destruct (extractor_counts_provider_error_as_attempt (env := sample_env)
              "Extract" "Reply in JSON." number_schema 3 default_temperature
              None server_error (answer "7") [] (Js.Number 7)
              ltac:(discriminate) Hstatus (fun b H => eq_refl) eq_refl)
    as (Hsettled & _ & Herrors & _ & Htimers).
  split; [exact Hsettled |]. split; [exact Herrors | exact Htimers].
Defined.

(** X15 on the array [1, 2] and a schema that accepts nothing. *)
Lemma one_invalid_element_rejects_array_witness :
  settled_of
    (sendGptRequestWithSchema_try (env := sample_env) "Extract"
       "Reply in JSON." never_schema default_temperature None
       [Ok (answer "[1, 2]")]) =
  Throw (Js.new_Error
           "Invalid response from GPT - object is not able to be parsed using the provided schema: [object]").
Proof.
  assert (Hnonempty : "[1, 2]" <> "") by discriminate.
  destruct (one_invalid_element_rejects_array (env := sample_env)
              "Extract" "Reply in JSON." never_schema default_temperature
              None [Ok (answer "[1, 2]")] []
              (trace_of
                 (sendGptRequest (env := sample_env) "Extract"
                    "Reply in JSON." default_temperature None default_retries
                    default_delay default_imagePrompt default_model
                    [Ok (answer "[1, 2]")]))
              "[1, 2]" [Js.Number 1; Js.Number 2] (Js.Number 1)
              eq_refl Hnonempty eq_refl (or_introl eq_refl) eq_refl)
    as (Hrun & _).
  rewrite Hrun. reflexivity.
Defined.

(** X16 on the single number 7. *)
Lemma single_value_is_returned_witness :
  settled_of
    (sendGptRequestWithSchema (env := sample_env) "Extract" "Reply in JSON."
       number_schema 3 default_temperature None [Ok (answer "7")]) =
  Return (Js.Number 7).
Proof.
  assert (Hnonempty : "7" <> "") by discriminate.
  assert (Hsingle : forall items,
            parse (Env := sample_env)
              (removeMarkdownCodeblocks (Env := sample_env) "7")
            <> Js.Array items) by (intros items; discriminate).
  rewrite (single_value_is_returned (env := sample_env)
             "Extract" "Reply in JSON." number_schema 3 default_temperature
             None [Ok (answer "7")] []
             (trace_of
                (sendGptRequest (env := sample_env) "Extract"
                   "Reply in JSON." default_temperature None default_retries
                   default_delay default_imagePrompt default_model
                   [Ok (answer "7")]))
             "7" (Js.Number 7) eq_refl Hnonempty Hsingle eq_refl eq_refl).
  reflexivity.
Defined.

(** X10 on the run whose three answers are all rejected. *)
Lemma extractor_throws_max_retries_on_rejected_run :
  settled_of rejected_run = Throw (max_retries_exceeded "Extract").
Proof.
  rewrite <- (extractor_only_throws_max_retries (env := sample_env)
                "Extract" "Reply in JSON." never_schema 3
                default_temperature None
                [Ok (answer "7"); Ok {| choices := []; usage := None |};
                 Ok (answer "[1, 2]"); Ok (answer "7")]
                (Js.new_Error "Max retries exceeded for GPT request: Extract")
                eq_refl).
  reflexivity.
Defined.

(** * Text of a Jira description *)

Lemma append_assoc (a b c : string) :
  String.append (String.append a b) c = String.append a (String.append b c).
Proof. induction a as [| x a IH]; cbn; [| rewrite IH]; reflexivity. Qed.

Lemma append_nil_r (a : string) : String.append a "" = a.
Proof. induction a as [| x a IH]; cbn; [| rewrite IH]; reflexivity. Qed.

(** The loop over an array appends the text of each node to what it has
    so far. *)
Lemma extractTextFromADF_array (nodes : list Js.value) :
  extractTextFromADF (Js.Array nodes) = join (map extractTextFromADF nodes).
Proof.
  cbn [extractTextFromADF].
  change "" with (join []) at 1.
  assert (Hacc : forall text,
    (fix each (nodes : list Js.value) (text : string) : string :=
       match nodes with
       | [] => text
       | node :: nodes' =>
           each nodes' (String.append text (extractTextFromADF node))
       end) nodes text =
    String.append text (join (map extractTextFromADF nodes))).
  { induction nodes as [| node nodes IH]; intros text.
    - cbn. rewrite append_nil_r. reflexivity.
    - cbn [map join fold_right]. rewrite IH, append_assoc. reflexivity. }
  apply (Hacc "").
Qed.

Lemma join_app (xs ys : list string) :
  join (xs ++ ys) = String.append (join xs) (join ys).
Proof.
  unfold join.
  induction xs as [| x xs IH]; cbn; [| rewrite IH, append_assoc];
    reflexivity.
Qed.

(** A node that is not a text node has the text of its [content]. *)
Lemma extractTextFromADF_content
    (fields : list (string * Js.value)) (v : Js.value) :
  text_of_node fields = None ->
  get fields "content" = Some v ->
  truthy v = true ->
  extractTextFromADF (Js.Object fields) = extractTextFromADF v.
Proof.
  intros Htext Hcontent Htruthy.
  cbn [extractTextFromADF]. rewrite Htext. clear Htext.
  induction fields as [| [k v0] fields IH]; [discriminate |].
  cbn [get] in Hcontent.
  destruct (String.eqb k "content").
  - injection Hcontent as ->. rewrite Htruthy. reflexivity.
  - apply IH. exact Hcontent.
Qed.

(** X17.  The text of an array of nodes is the text of its nodes in
    order: splitting the array anywhere splits the text there. *)
Theorem adf_text_of_concatenated_arrays (before after : list Js.value) :
  extractTextFromADF (Js.Array (before ++ after)) =
  String.append (extractTextFromADF (Js.Array before))
                (extractTextFromADF (Js.Array after)).
Proof.
  rewrite !extractTextFromADF_array, map_app, join_app. reflexivity.
Qed.

(** X18.  For a document of paragraphs of text nodes the result is all
    the texts run together: nothing is put between the texts of one
    paragraph, and nothing between two paragraphs either. *)
Theorem adf_paragraphs_run_together (paragraphs : list (list string)) :
  extractTextFromADF
    (doc (map (fun texts => paragraph (map text_node texts)) paragraphs)) =
  join (map join paragraphs).
Proof.
  assert (Htexts : forall texts,
            extractTextFromADF (paragraph (map text_node texts)) =
            join texts).
  { intros texts. unfold paragraph.
    rewrite (extractTextFromADF_content _ (Js.Array (map text_node texts)))
      by reflexivity.
    rewrite extractTextFromADF_array, map_map.
    f_equal. induction texts as [| t texts IH]; [reflexivity |].
    cbn [map]. rewrite IH. reflexivity. }
  unfold doc.
  rewrite (extractTextFromADF_content _
             (Js.Array
                (map (fun texts => paragraph (map text_node texts))
                   paragraphs))) by reflexivity.
  rewrite extractTextFromADF_array, map_map.
  f_equal. induction paragraphs as [| texts paragraphs IH]; [reflexivity |].
  cbn [map]. rewrite IH, Htexts. reflexivity.
Qed.

(** X19.  Only nodes contribute text: a description that is a bare
    string, a number, a boolean, [null] or [undefined] gives the empty
    text, and so does an object with neither a text of its own nor a
    truthy [content]. *)
Theorem adf_text_only_from_nodes (adfNode : Js.value) :
  (forall nodes, adfNode <> Js.Array nodes) ->
  (forall fields,
      adfNode = Js.Object fields ->
      text_of_node fields = None /\
      match get fields "content" with
      | Some v => truthy v = false
      | None => True
      end) ->
  extractTextFromADF adfNode = "".
Proof.
  intros Harray Hobject.
  destruct adfNode as [| | b | n | str | nodes | fields]; try reflexivity.
  - exfalso. exact (Harray nodes eq_refl).
  - destruct (Hobject fields eq_refl) as [Htext Hcontent].
    cbn [extractTextFromADF]. rewrite Htext. clear Htext Hobject Harray.
    induction fields as [| [k v] fields IH]; [reflexivity |].
    cbn [get] in Hcontent.
    destruct (String.eqb k "content").
    + rewrite Hcontent. reflexivity.
    + apply IH. exact Hcontent.
Qed.

(** X19 on a bare string and on a hard break. *)
Lemma adf_text_only_from_nodes_witness :
  extractTextFromADF (Js.Str "plain description") = ""
  /\ extractTextFromADF (Js.Object [("type", Js.Str "hardBreak")]) = "".
Proof.
  split.
  - apply adf_text_only_from_nodes.
    + intros nodes; discriminate.
    + intros fields; discriminate.
  - apply adf_text_only_from_nodes.
    + intros nodes; discriminate.
    + intros fields Hfields. injection Hfields as <-.
      split; [reflexivity | exact I].
Defined.

(** * Creating a todo, and cloning for a source map *)

Section CreateTodo.
Import TodoModel.
Context {world : World}.

Lemma split_on_without_separator (sep : ascii) (s : string) :
  contains sep s = false -> split_on sep s = [s].
Proof.
  induction s as [| c s IH]; [reflexivity |].
  cbn [contains split_on]. intros Hno.
  apply orb_false_iff in Hno. destruct Hno as [Hc Hs].
  rewrite Hc, (IH Hs). reflexivity.
Qed.

Lemma invalid_repo_is_rejected repo projectId issueNumber accessToken st :
  valid_repo repo = false ->
  createTodo repo projectId issueNumber accessToken st =
  (Err (Js.new_Error "Invalid repo name"), [], st).
Proof.
  unfold valid_repo, createTodo. intros Hinvalid.
  apply negb_false_iff in Hinvalid.
  destruct (nth_error (split_on "/"%char repo) 0) as [owner |];
    destruct (nth_error (split_on "/"%char repo) 1) as [name |];
    try reflexivity.
  rewrite Hinvalid. reflexivity.
Qed.

(** X20.  A repository name without a slash is refused before anything
    else happens: [createTodo] throws "Invalid repo name" without a
    single call, whether or not an access token was given. *)
Theorem createTodo_rejects_repo_without_slash
    repo projectId issueNumber accessToken st :
  contains "/"%char repo = false ->
  createTodo repo projectId issueNumber accessToken st =
  (Err (Js.new_Error "Invalid repo name"), [], st).
Proof.
  intros Hno. apply invalid_repo_is_rejected.
  unfold valid_repo. rewrite (split_on_without_separator _ _ Hno).
  cbn. rewrite orb_true_r. reflexivity.
Qed.

(** Unfolds [createTodo] past its two guards. *)
Ltac pass_guards Howner Hname :=
  unfold createTodo;
  rewrite Howner, Hname;
  cbn [falsy];
  rewrite !(proj2 (String.eqb_neq _ _)) by assumption;
  cbn [orb].

Lemma valid_repo_parts (repo : string) :
  valid_repo repo = true ->
  exists owner name,
    nth_error (split_on "/"%char repo) 0 = Some owner
    /\ nth_error (split_on "/"%char repo) 1 = Some name
    /\ owner <> "" /\ name <> "".
Proof.
  unfold valid_repo. intros Hvalid.
  apply negb_true_iff, orb_false_iff in Hvalid.
  destruct Hvalid as [Howner Hname].
  destruct (nth_error (split_on "/"%char repo) 0) as [owner |];
    [| discriminate].
  destruct (nth_error (split_on "/"%char repo) 1) as [name |];
    [| discriminate].
  exists owner, name. cbn [falsy] in *.
  repeat split; try reflexivity; apply String.eqb_neq; assumption.
Qed.

(** X21.  With a well-formed repository name but no access token (absent
    or empty), [createTodo] throws "Access token is required" without a
    single call. *)
Theorem createTodo_requires_token
    repo projectId issueNumber accessToken st :
  valid_repo repo = true ->
  falsy accessToken = true ->
  createTodo repo projectId issueNumber accessToken st =
  (Err (Js.new_Error "Access token is required"), [], st).
Proof.
  intros Hvalid Htoken.
  destruct (valid_repo_parts repo Hvalid)
    as (owner & name & Howner & Hname & Hno & Hnn).
  pass_guards Howner Hname.
  destruct accessToken as [token |]; [| reflexivity].
  cbn [falsy] in *. rewrite Htoken. reflexivity.
Qed.

(** X22.  When a todo for the issue already exists, [createTodo] returns
    nothing after the one lookup: the issue is not fetched and nothing
    is cloned. *)
Theorem createTodo_skips_existing_todo
    repo projectId issueNumber token (existing : Todo) st :
  valid_repo repo = true ->
  token <> "" ->
  db_todos_findByOptional projectId issueNumber = Ok (Some existing) ->
  createTodo repo projectId issueNumber (Some token) st =
  (Ok None,
   [call_findByOptional projectId issueNumber;
    log_already_exists issueNumber], st).
Proof.
  intros Hvalid Htoken Hfind.
  destruct (valid_repo_parts repo Hvalid)
    as (owner & name & Howner & Hname & Hno & Hnn).
  pass_guards Howner Hname.
  unfold bind at 1, perform at 1. rewrite Hfind. reflexivity.
Qed.

(** Case analysis over the results of the collaborators, in the order
    in which the program consults them. *)
Ltac run_collaborators :=
  repeat
    (cbn [fst snd app];
     match goal with
     | |- context [getRepoSettings ?a ?b] =>
         destruct (getRepoSettings a b) eqn:?
     | |- context [getSourceMap ?a ?b] => destruct (getSourceMap a b) eqn:?
     | |- context [getExtractedIssue ?a ?b] =>
         destruct (getExtractedIssue a b) eqn:?
     | |- context [db_todos_create ?a] => destruct (db_todos_create a) eqn:?
     | |- context [researchIssue ?a ?b ?c ?d ?e] =>
         destruct (researchIssue a b c d e) eqn:?
     | |- context [getOrGeneratePlan ?a ?b ?c ?d] =>
         destruct (getOrGeneratePlan a b c d) eqn:?
     | |- context [cleanup ?a] => destruct (cleanup a) eqn:?
     end).

Ltac unfold_program :=
  unfold run_cleanup;
  unfold bind, perform, print, ret, throw, try_catch, try_finally,
    set_cleanupClone, declare_cleanupClone.

(** X23.  Once the repository has been cloned, its clone is removed
    exactly once, as the last call of [createTodo], whether the todo is
    created or a later step throws.  When the clone itself fails there
    is nothing to remove: the error is printed and nothing is returned. *)
Theorem createTodo_removes_clone_once
    repo projectId issueNumber token owner name (issue : Issue) st :
  nth_error (split_on "/"%char repo) 0 = Some owner ->
  nth_error (split_on "/"%char repo) 1 = Some name ->
  owner <> "" -> name <> "" -> token <> "" ->
  db_todos_findByOptional projectId issueNumber = Ok None ->
  getIssue owner name token issueNumber = Ok issue ->
  let run := createTodo repo projectId issueNumber (Some token) st in
  match cloneRepo repo token with
  | Ok path =>
      cleanups_of (snd (fst run)) = [path]
      /\ last (snd (fst run)) (log_created 0) = call_cleanup path
  | Err error =>
      run = (Ok None,
             [call_findByOptional projectId issueNumber;
              call_getIssue owner name token issueNumber;
              call_cloneRepo repo token;
              error_while_creating (number issue) error], None)
  end.
Proof.
  intros Howner Hname Hno Hnn Htoken Hfind Hissue run. subst run.
  pass_guards Howner Hname.
  unfold_program. rewrite Hfind, Hissue.
  destruct (cloneRepo repo token) as [path | error]; [| reflexivity].
  destruct (existsb (String.eqb (trim repo)) agentRepos);
    run_collaborators; split; reflexivity.
Qed.

(** X24.  After the issue has been fetched, no failure of a later step
    (clone, settings, source map, extraction, database, research, plan)
    leaves [createTodo]: as long as removing the clone succeeds, the call
    settles with a value, a todo or nothing. *)
Theorem createTodo_swallows_later_errors
    repo projectId issueNumber token owner name (issue : Issue) st :
  nth_error (split_on "/"%char repo) 0 = Some owner ->
  nth_error (split_on "/"%char repo) 1 = Some name ->
  owner <> "" -> name <> "" -> token <> "" ->
  db_todos_findByOptional projectId issueNumber = Ok None ->
  getIssue owner name token issueNumber = Ok issue ->
  (forall path, cleanup path = Ok tt) ->
  exists result,
    fst (fst (createTodo repo projectId issueNumber (Some token) st)) =
    Ok result.
Proof.
  intros Howner Hname Hno Hnn Htoken Hfind Hissue Hcleanup.
  pass_guards Howner Hname.
  unfold_program. rewrite Hfind, Hissue.
  destruct (cloneRepo repo token) as [path | error];
    [| eexists; reflexivity].
  destruct (existsb (String.eqb (trim repo)) agentRepos);
    run_collaborators;
    try match goal with
        | H : cleanup _ = Err _ |- _ =>
            rewrite Hcleanup in H; discriminate H
        end;
    eexists; reflexivity.
Qed.

(** Research and planning happen only for a repository whose trimmed
    name is one of the entries of [AGENT_REPOS]. *)
Lemma no_agent_work_unless_listed
    repo projectId issueNumber accessToken st :
  existsb (String.eqb (trim repo)) agentRepos = false ->
  existsb is_agent_work
    (snd (fst (createTodo repo projectId issueNumber accessToken st))) =
  false.
Proof.
  intros Hlisted. unfold createTodo.
  destruct (nth_error (split_on "/"%char repo) 0) as [owner |];
    [| reflexivity].
  destruct (nth_error (split_on "/"%char repo) 1) as [name |];
    [| reflexivity].
  destruct (falsy (Some owner) || falsy (Some name)); [reflexivity |].
  destruct accessToken as [token |]; [| reflexivity].
  destruct (falsy (Some token)); [reflexivity |].
  unfold_program.
  destruct (db_todos_findByOptional projectId issueNumber)
    as [[existing |] | error]; try reflexivity.
  destruct (getIssue owner name token issueNumber) as [issue | error];
    [| reflexivity].
  rewrite Hlisted.
  destruct (cloneRepo repo token) as [path | error]; [| reflexivity].
  run_collaborators; reflexivity.
Qed.

(** X25.  [createTodo] researches an issue and generates a plan only
    when the trimmed repository name is one of the comma-separated
    entries of [AGENT_REPOS], compared as they stand; for every other
    repository neither call is ever made. *)
Theorem createTodo_researches_only_agent_repos
    repo projectId issueNumber accessToken st :
  existsb (String.eqb (trim repo)) agentRepos = false ->
  existsb is_agent_work
    (snd (fst (createTodo repo projectId issueNumber accessToken st))) =
  false.
Proof. apply no_agent_work_unless_listed. Qed.

Lemma space_is_not_slash (c : ascii) :
  is_space c = true -> Ascii.eqb c "/"%char = false.
Proof.
  destruct c as [[] [] [] [] [] [] [] []]; cbn; intros H;
    try reflexivity; discriminate H.
Qed.

Lemma trim_end_empty (s : string) :
  trim_end s = "" -> contains "/"%char s = false.
Proof.
  induction s as [| c s IH]; [reflexivity |].
  cbn [trim_end contains].
  destruct (is_space c) eqn:Hspace; cbn [andb]; [| discriminate].
  destruct (String.eqb (trim_end s) "") eqn:Hrest; [| discriminate].
  intros _. apply String.eqb_eq in Hrest.
  rewrite (space_is_not_slash c Hspace), (IH Hrest). reflexivity.
Qed.

Lemma trim_start_keeps_slash (s : string) :
  contains "/"%char (trim_start s) = false -> contains "/"%char s = false.
Proof.
  induction s as [| c s IH]; [reflexivity |].
  cbn [trim_start].
  destruct (is_space c) eqn:Hspace; [| trivial].
  intros Hrest. cbn [contains].
  rewrite (space_is_not_slash c Hspace), (IH Hrest). reflexivity.
Qed.

Lemma valid_repo_has_slash (repo : string) :
  valid_repo repo = true -> contains "/"%char repo = true.
Proof.
  intros Hvalid.
  destruct (contains "/"%char repo) eqn:Hslash; [reflexivity |].
  unfold valid_repo in Hvalid.
  rewrite (split_on_without_separator _ _ Hslash) in Hvalid.
  cbn in Hvalid. rewrite orb_true_r in Hvalid. discriminate.
Qed.

(** X26.  When [AGENT_REPOS] is not set, the list of agent repositories
    is the single empty string, which no acceptable repository name
    trims to: no issue is ever researched and no plan generated. *)
Theorem createTodo_without_agent_repos
    repo projectId issueNumber accessToken st :
  AGENT_REPOS = None ->
  existsb is_agent_work
    (snd (fst (createTodo repo projectId issueNumber accessToken st))) =
  false.
Proof.
  intros Hunset.
  destruct (valid_repo repo) eqn:Hvalid.
  - apply no_agent_work_unless_listed.
    unfold agentRepos. rewrite Hunset. cbn [split_on existsb].
    rewrite orb_false_r. apply String.eqb_neq. intros Hblank.
    pose proof (valid_repo_has_slash repo Hvalid) as Hslash.
    unfold trim in Hblank.
    rewrite (trim_start_keeps_slash repo (trim_end_empty _ Hblank))
      in Hslash.
    discriminate.
  - rewrite invalid_repo_is_rejected by assumption. reflexivity.
Qed.

(** X27.  [cloneAndGetSourceMap] removes the clone exactly once, as its
    last call, and then settles as the settings and the source map did;
    when the clone fails it throws that error and removes nothing. *)
Theorem cloneAndGetSourceMap_removes_clone repo accessToken st :
  let run := cloneAndGetSourceMap repo accessToken st in
  match cloneRepo repo accessToken with
  | Ok path =>
      cleanup path = Ok tt ->
      fst (fst run) =
        match getRepoSettings path repo with
        | Ok repoSettings => getSourceMap path repoSettings
        | Err error => Err error
        end
      /\ cleanups_of (snd (fst run)) = [path]
      /\ last (snd (fst run)) (log_created 0) = call_cleanup path
  | Err error => run = (Err error, [call_cloneRepo repo accessToken], None)
  end.
Proof.
  cbv zeta. unfold cloneAndGetSourceMap. unfold_program.
  destruct (cloneRepo repo accessToken) as [path | error]; [| reflexivity].
  intros Hcleanup.
  run_collaborators; try congruence; repeat split; reflexivity.
Qed.

(** X28.  An error thrown while removing the clone replaces the outcome:
    [cloneAndGetSourceMap] throws it even when the source map was
    computed, and [createTodo] throws it even when the todo was
    created. *)
Theorem cleanup_error_replaces_the_outcome
    repo projectId issueNumber token owner name (issue : Issue) path
    (error : Js.Error) st :
  cloneRepo repo token = Ok path ->
  cleanup path = Err error ->
  fst (fst (cloneAndGetSourceMap repo token st)) = Err error
  /\ (nth_error (split_on "/"%char repo) 0 = Some owner ->
      nth_error (split_on "/"%char repo) 1 = Some name ->
      owner <> "" -> name <> "" -> token <> "" ->
      db_todos_findByOptional projectId issueNumber = Ok None ->
      getIssue owner name token issueNumber = Ok issue ->
      fst (fst (createTodo repo projectId issueNumber (Some token) st)) =
      Err error).
Proof.
  intros Hclone Hcleanup. split.
  - unfold cloneAndGetSourceMap. unfold_program.
    rewrite Hclone. run_collaborators; cbn [fst]; congruence.
  - intros Howner Hname Hno Hnn Htoken Hfind Hissue.
    pass_guards Howner Hname.
    unfold_program. rewrite Hfind, Hissue, Hclone.
    destruct (existsb (String.eqb (trim repo)) agentRepos);
      run_collaborators; cbn [fst]; congruence.
Qed.

End CreateTodo.

(** X20 on a name without a slash. *)
Lemma createTodo_rejects_repo_without_slash_witness :
  TodoModel.createTodo (world := TodoModel.sample_world) "acme" 1 5
    (Some "token") None =
  (Err (Js.new_Error "Invalid repo name"), [], None).
Proof.
  apply (createTodo_rejects_repo_without_slash
           (world := TodoModel.sample_world) "acme" 1 5 (Some "token") None).
  reflexivity.
Defined.

(** X21 on an empty token. *)
Lemma createTodo_requires_token_witness :
  TodoModel.createTodo (world := TodoModel.sample_world) "acme/app" 1 5
    (Some "") None =
  (Err (Js.new_Error "Access token is required"), [], None).
Proof.
  exact (createTodo_requires_token (world := TodoModel.sample_world)
           "acme/app" 1 5 (Some "") None eq_refl eq_refl).
Defined.

(** X22 on issue 7, which has a todo in the sample world. *)
Lemma createTodo_skips_existing_todo_witness :
  TodoModel.createTodo (world := TodoModel.sample_world) "acme/app" 1 7
    (Some "token") None =
  (Ok None,
   [TodoModel.call_findByOptional 1 7; TodoModel.log_already_exists 7],
   None).
Proof.
  apply (createTodo_skips_existing_todo (world := TodoModel.sample_world)
           "acme/app" 1 7 "token"
           {| TodoModel.id := 1;
              TodoModel.fields :=
                {| TodoModel.projectId := 1; TodoModel.description := "";
                   TodoModel.name := "Old"; TodoModel.issueId := 7;
                   TodoModel.position := 7 |} |} None);
    (reflexivity || discriminate).
Defined.

(** X23 in the world whose extraction throws: the clone is still removed,
    once, at the end. *)
Lemma createTodo_removes_clone_once_witness :
  TodoModel.cleanups_of
    (snd (fst (TodoModel.createTodo
                 (world := TodoModel.failing_extraction_world) "acme/app" 1 5
                 (Some "token") None))) = ["/tmp/acme/app"]
  /\ last
       (snd (fst (TodoModel.createTodo
                    (world := TodoModel.failing_extraction_world) "acme/app"
                    1 5 (Some "token") None)))
       (TodoModel.log_created 0) = TodoModel.call_cleanup "/tmp/acme/app".
Proof.
  apply (createTodo_removes_clone_once
           (world := TodoModel.failing_extraction_world) "acme/app" 1 5
           "token" "acme" "app" (TodoModel.sample_issue 5) None);
    (reflexivity || discriminate).
Defined.

(** X24 in the same world: the extraction error does not leave the call,
    which returns nothing. *)
Lemma createTodo_swallows_later_errors_witness :
  exists result,
    fst (fst (TodoModel.createTodo
                (world := TodoModel.failing_extraction_world) "acme/app" 1 5
                (Some "token") None)) = Ok result.
Proof.
  apply (createTodo_swallows_later_errors
           (world := TodoModel.failing_extraction_world) "acme/app" 1 5
           "token" "acme" "app" (TodoModel.sample_issue 5) None);
    (reflexivity || discriminate).
Defined.

(** X25 with [AGENT_REPOS = "acme/agent, acme/other"]: the second entry
    keeps its leading space, so acme/other is not researched. *)
Lemma createTodo_researches_only_agent_repos_witness :
  existsb TodoModel.is_agent_work
    (snd (fst (TodoModel.createTodo (world := TodoModel.sample_world)
                 "acme/other" 1 5 (Some "token") None))) = false.
Proof.
  apply (createTodo_researches_only_agent_repos
           (world := TodoModel.sample_world) "acme/other" 1 5 (Some "token")
           None).
  reflexivity.
Defined.

(** X26 in a world without [AGENT_REPOS]. *)
Lemma createTodo_without_agent_repos_witness :
  existsb TodoModel.is_agent_work
    (snd (fst (TodoModel.createTodo
                 (world := TodoModel.failing_cleanup_world) "acme/app" 1 5
                 (Some "token") None))) = false.
Proof.
  apply (createTodo_without_agent_repos
           (world := TodoModel.failing_cleanup_world) "acme/app" 1 5
           (Some "token") None).
  reflexivity.
Defined.

(** X27 in the sample world: the source map is returned and the clone
    removed. *)
Lemma cloneAndGetSourceMap_removes_clone_witness :
  fst (fst (TodoModel.cloneAndGetSourceMap (world := TodoModel.sample_world)
              "acme/app" "token" None)) = Ok "src/index.ts"
  /\ TodoModel.cleanups_of
       (snd (fst (TodoModel.cloneAndGetSourceMap
                    (world := TodoModel.sample_world) "acme/app" "token"
                    None))) = ["/tmp/acme/app"]
  /\ last
       (snd (fst (TodoModel.cloneAndGetSourceMap
                    (world := TodoModel.sample_world) "acme/app" "token"
                    None)))
       (TodoModel.log_created 0) = TodoModel.call_cleanup "/tmp/acme/app".
Proof.
  apply (cloneAndGetSourceMap_removes_clone (world := TodoModel.sample_world)
           "acme/app" "token" None).
  reflexivity.
Defined.

(** X28 in the world whose cleanup throws: the source map and the created
    todo are both lost to the caller. *)
Lemma cleanup_error_replaces_the_outcome_witness :
  fst (fst (TodoModel.cloneAndGetSourceMap
              (world := TodoModel.failing_cleanup_world) "acme/app" "token"
              None)) = Err (Js.new_Error "EBUSY: directory in use")
  /\ fst (fst (TodoModel.createTodo
                 (world := TodoModel.failing_cleanup_world) "acme/app" 1 5
                 (Some "token") None)) =
     Err (Js.new_Error "EBUSY: directory in use").
Proof.
  destruct (cleanup_error_replaces_the_outcome
              (world := TodoModel.failing_cleanup_world) "acme/app" 1 5
              "token" "acme" "app" (TodoModel.sample_issue 5) "/tmp/acme/app"
              (Js.new_Error "EBUSY: directory in use") None
              eq_refl eq_refl) as (Hmap & Htodo).
  split; [exact Hmap |].
  apply Htodo; (reflexivity || discriminate).
Defined.

(** X12 on the run whose three answers are rejected: three attempts given
    up, the bound for [maxRetries = 3]. *)
Lemma extractor_attempts_bounded_witness :
  List.length (attempt_errors_of (trace_of rejected_run)) = 3%nat.
Proof.
  destruct (extractor_attempts_bounded (env := sample_env) "Extract"
              "Reply in JSON." never_schema 3 default_temperature None
              [Ok (answer "7"); Ok {| choices := []; usage := None |};
               Ok (answer "[1, 2]"); Ok (answer "7")])
    as (_ & Hthrows & _).
  exact (Hthrows (max_retries_exceeded "Extract") eq_refl).
Defined.

(** * Rate limits as the provider's client reports them

    The [catch] block of [sendGptRequest] retries when
    [error.response?.status] is 429.  The errors of the OpenAI client
    carry the status in [error.status] and have no [response], so for
    them the test fails and the error is thrown again at once. *)

Section ClientErrors.
Context {env : Env}.

Lemma without_response_stops (retries : Z) (error : Js.Error) :
  Js.response_status error = None ->
  (retries =? 0) || status_is_not_429 error = true.
Proof.
  intros Hshape. unfold status_is_not_429. rewrite Hshape.
  apply orb_true_r.
Qed.

(** C4 fails on the code.  With [retries = 10] and [delay = 60000], when
    the provider answers the first request with a 429 as its client
    throws it ([status = 429], no [response]), the call throws that error
    at once: one request has gone out, no timer is set, no retry is
    announced, and the answers the provider had for a second and a third
    attempt are never asked for. *)
Theorem provider_rate_limit_is_not_retried
    userPrompt systemPrompt temperature baseEventData imagePrompt model
    (e1 e2 : Js.Error) (response : Response) (rest : Script) :
  Js.status e1 = Some 429 ->
  Js.response_status e1 = None ->
  let run := sendGptRequest userPrompt systemPrompt temperature
               baseEventData 10 60000 imagePrompt model
               (Err e1 :: Err e2 :: Ok response :: rest) in
  settled_of run = Throw e1
  /\ rest_of run = Err e2 :: Ok response :: rest
  /\ network_and_timers (trace_of run) =
       [chat_completions_create
          (dispatched userPrompt systemPrompt temperature imagePrompt
             model)]
  /\ timeouts_of (trace_of run) = []
  /\ retry_lines_of (trace_of run) = [].
Proof.
  intros _ Hshape run. subst run.
  rewrite sendGptRequest_unfold, sendGptRequest_try_run. cbv zeta.
  rewrite (without_response_stops 10 e1 Hshape).
  cbn [settled_of rest_of trace_of fst snd].
  destruct (budget_log_silent (String.append userPrompt systemPrompt) model)
    as (Hnet & _ & Htim & Hlin).
  rewrite !network_and_timers_app, !timeouts_of_app, !retry_lines_of_app,
    Hnet, Htim, Hlin.
  repeat split; reflexivity.
Qed.

(** C10 fails on the code.  When the first request of a call, with or
    without an image block and on any model, is answered with a 429 as
    the provider's client throws it ([status = 429], no [response]) while
    retries remain, there is no retried attempt at all: the call throws
    the error after its one request, with the image block and the model
    it was given, and sets no timer. *)
Theorem provider_rate_limit_sends_no_second_request
    userPrompt systemPrompt temperature baseEventData retries delay
    imagePrompt model (error : Js.Error) (rest : Script) :
  Js.status error = Some 429 ->
  Js.response_status error = None ->
  retries <> 0 ->
  let run := sendGptRequest userPrompt systemPrompt temperature
               baseEventData retries delay imagePrompt model
               (Err error :: rest) in
  settled_of run = Throw error
  /\ rest_of run = rest
  /\ requests_of (trace_of run) =
       [dispatched userPrompt systemPrompt temperature imagePrompt model]
  /\ timeouts_of (trace_of run) = [].
Proof.
  intros _ Hshape _ run. subst run.
  rewrite sendGptRequest_unfold, sendGptRequest_try_run. cbv zeta.
  rewrite (without_response_stops retries error Hshape).
  cbn [settled_of rest_of trace_of fst snd].
  destruct (budget_log_silent (String.append userPrompt systemPrompt) model)
    as (_ & Hreq & Htim & _).
  rewrite !requests_of_app, !timeouts_of_app, Hreq, Htim.
  repeat split; reflexivity.
Qed.



End ClientErrors.

(** C4 on the sample call: the first 429 of the provider's client ends
    the call, and the two later answers stay unused. *)
Lemma provider_rate_limit_is_not_retried_witness :
  settled_of throttled_run = Throw provider_rate_limit
  /\ rest_of throttled_run = [Err provider_rate_limit; Ok (answer "ok")]
  /\ network_and_timers (trace_of throttled_run) =
       [chat_completions_create
          (dispatched (env := sample_env) "Hi" default_systemPrompt
             default_temperature None default_model)]
  /\ timeouts_of (trace_of throttled_run) = []
  /\ retry_lines_of (trace_of throttled_run) = [].
Proof.
  exact (provider_rate_limit_is_not_retried (env := sample_env) "Hi"
           default_systemPrompt default_temperature (Some tt) None
           default_model provider_rate_limit provider_rate_limit
           (answer "ok") [] eq_refl eq_refl).
Defined.

(** C10 on the vision-style call: one request, with the image block and
    the vision model, and no second one. *)
Lemma provider_rate_limit_sends_no_second_request_witness :
  settled_of throttled_vision_run = Throw provider_rate_limit
  /\ rest_of throttled_vision_run = [Ok (answer "ok")]
  /\ requests_of (trace_of throttled_vision_run) =
       [ {| model := gpt_4_vision_preview;
            messages :=
              [ snapshot_block;
                {| role := "system"; content := Plain default_systemPrompt |};
                {| role := "user"; content := Plain "Hi" |} ];
            max_tokens := 4096;
            temperature := default_temperature |} ]
  /\ timeouts_of (trace_of throttled_vision_run) = [].
Proof.
  exact (provider_rate_limit_sends_no_second_request (env := sample_env)
           "Hi" default_systemPrompt default_temperature None 10 60000
           (Some snapshot_block) gpt_4_vision_preview provider_rate_limit
           [Ok (answer "ok")] eq_refl eq_refl ltac:(discriminate)).
Defined.

